(** * CCPanel: vehicle dashboard backend (src/dev/main.py)

    A shallow embedding of the telemetry acquisition and broadcast code:
    the per-channel OBD readers, the simulated generator, the hourly log
    rotation, the trouble-code reader, the two periodic loops and the
    control / radio mutation entry points (POST handlers and subscriber
    message handlers). *)

From Stdlib Require Import ZArith Bool List String Ascii Lia.
From Stdlib Require Import Floats.
From stdpp Require Import base option gmap strings list fin_maps.

Set Warnings "-inexact-float".

Local Open Scope string_scope.
Local Open Scope list_scope.
Local Open Scope Z_scope.

(* ===================================================================== *)
(** ** Python numbers: [int] and [float] *)
(* ===================================================================== *)

Module Py.

(** A Python number as the code handles it: an unbounded [int] or a
    binary64 [float] (Rocq's primitive floats are IEEE 754 binary64). *)
Inductive num :=
| PyInt (z : Z)
| PyFloat (f : float).

(** Exceptions that the modelled code can raise. *)
Inductive exn :=
| ValueError
| OverflowError
| TypeError
| AttributeError
| KeyError
| OSError.

(** The signed integer [(-1)^s * m] of a finite float's decomposition. *)
Definition signed (s : bool) (m : positive) : Z :=
  if s then Z.neg m else Z.pos m.

(** The binary64 number nearest to the rational [n / d] (ties to even):
    Python's [int / int] true division and its decimal-to-float
    conversion are both correctly rounded. *)
Definition of_ratio (n : Z) (d : positive) : float :=
  match n with
  | Z0 => zero
  | Zpos p => SF2Prim (SFdiv prec emax (S754_finite false p 0) (S754_finite false d 0))
  | Zneg p => SF2Prim (SFdiv prec emax (S754_finite true p 0) (S754_finite false d 0))
  end.

(** [float(z)] for a Python int. *)
Definition of_int (z : Z) : float := of_ratio z 1.

(** [int(x)]: truncation toward zero; [ValueError] on NaN and
    [OverflowError] on an infinity. *)
Definition int_of_float (x : float) : exn + Z :=
  match Prim2SF x with
  | S754_nan => inl ValueError
  | S754_infinity _ => inl OverflowError
  | S754_zero _ => inr 0
  | S754_finite s m e =>
      inr (if 0 <=? e then signed s m * 2 ^ e
           else Z.quot (signed s m) (2 ^ (- e)))
  end.

Definition int (v : num) : exn + Z :=
  match v with
  | PyInt z => inr z
  | PyFloat f => int_of_float f
  end.

(** The integer nearest to [10 * m * 2^e], ties to even, for [e < 0]. *)
Definition tenths (m : positive) (e : Z) : Z :=
  let n := 10 * Z.pos m in
  let d := 2 ^ (- e) in
  let q := n / d in
  let r := n mod d in
  match 2 * r ?= d with
  | Lt => q
  | Gt => q + 1
  | Eq => if Z.even q then q else q + 1
  end.

(** [round(x, 1)] on a float: the exact binary value is rounded to one
    decimal digit (half to even) and the decimal result is converted
    back to the nearest float; non-finite values, zeros and floats
    that are already integers ([e >= 0]) are returned unchanged. *)
Definition round1_float (x : float) : float :=
  match Prim2SF x with
  | S754_finite s m e =>
      if 0 <=? e then x
      else
        let k := tenths m e in
        if k =? 0 then (if s then neg_zero else zero)
        else of_ratio (if s then - k else k) 10
  | _ => x
  end.

(** [round(v, 1)]: an [int] is returned as it is. *)
Definition round1 (v : num) : num :=
  match v with
  | PyInt z => PyInt z
  | PyFloat f => PyFloat (round1_float f)
  end.

(** [v / k] for a positive int literal [k] (true division: the result
    is always a float). An int too large for the quotient to be a float
    raises [OverflowError]. *)
Definition truediv (v : num) (k : positive) : exn + float :=
  match v with
  | PyInt z =>
      let q := of_ratio z k in
      if is_infinity q then inl OverflowError else inr q
  | PyFloat f => inr (f / of_int (Z.pos k))%float
  end.

(** Exact comparison of an int with a float ([None]: unordered, NaN). *)
Definition compare_int_float (z : Z) (f : float) : option comparison :=
  match Prim2SF f with
  | S754_nan => None
  | S754_infinity s => Some (if s then Gt else Lt)
  | S754_zero _ => Some (z ?= 0)
  | S754_finite s m e =>
      if 0 <=? e then Some (z ?= signed s m * 2 ^ e)
      else Some (z * 2 ^ (- e) ?= signed s m)
  end.

Definition compare (a b : num) : option comparison :=
  match a, b with
  | PyInt x, PyInt y => Some (x ?= y)
  | PyInt x, PyFloat g => compare_int_float x g
  | PyFloat f, PyInt y => CompOpp <$> compare_int_float y f
  | PyFloat f, PyFloat g =>
      match (f ?= g)%float with
      | FEq => Some Eq
      | FLt => Some Lt
      | FGt => Some Gt
      | FNotComparable => None
      end
  end.

(** Python's [a < b], [a <= b], [a > b], [a == b] on numbers. *)
Definition lt (a b : num) : bool :=
  match compare a b with Some Lt => true | _ => false end.
Definition le (a b : num) : bool :=
  match compare a b with Some Lt | Some Eq => true | _ => false end.
Definition gt (a b : num) : bool := lt b a.
Definition eq (a b : num) : bool :=
  match compare a b with Some Eq => true | _ => false end.

End Py.


(* ===================================================================== *)
(** ** Naive local date-times and the two [strftime] formats *)
(* ===================================================================== *)

Module Datetime.

(** A [datetime] value, as microseconds since 1970-01-01T00:00:00 of the
    naive local calendar; [timedelta] arithmetic is arithmetic on it. *)
Definition datetime := Z.

Definition usec_per_hour : Z := 3600000000.
Definition usec_per_minute : Z := 60000000.

(** [now - timedelta(hours=n)] *)
Definition sub_hours (t : datetime) (n : Z) : datetime := t - n * usec_per_hour.

(** Proleptic Gregorian date [(year, month, day)] of a day number
    (days since 1970-01-01). *)
Definition civil_from_days (days : Z) : Z * Z * Z :=
  let z := days + 719468 in
  let era := z / 146097 in
  let doe := z - era * 146097 in
  let yoe := (doe - doe / 1460 + doe / 36524 - doe / 146096) / 365 in
  let y := yoe + era * 400 in
  let doy := doe - (365 * yoe + yoe / 4 - yoe / 100) in
  let mp := (5 * doy + 2) / 153 in
  let d := doy - (153 * mp + 2) / 5 + 1 in
  let m := if mp <? 10 then mp + 3 else mp - 9 in
  (if m <=? 2 then y + 1 else y, m, d).

Definition year (t : datetime) : Z := fst (fst (civil_from_days (t / (24 * usec_per_hour)))).
Definition month (t : datetime) : Z := snd (fst (civil_from_days (t / (24 * usec_per_hour)))).
Definition day (t : datetime) : Z := snd (civil_from_days (t / (24 * usec_per_hour))).
Definition hour (t : datetime) : Z := (t / usec_per_hour) mod 24.
Definition minute (t : datetime) : Z := (t / usec_per_minute) mod 60.

Definition digit (n : Z) : ascii := ascii_of_nat (48 + Z.to_nat (n mod 10)).

(** Zero-padded decimal fields, [%d %m %H %M] (two digits) and [%Y]
    (four digits, for the years 0 to 9999 of Python's datetime). *)
Definition pad2 (n : Z) : string :=
  String (digit (n / 10)) (String (digit n) "").
Definition pad4 (n : Z) : string :=
  String (digit (n / 1000)) (String (digit (n / 100)) (pad2 n)).

(** [t.strftime('%Y-%m-%d_%H')] *)
Definition strftime_hour (t : datetime) : string :=
  pad4 (year t) +:+ "-" +:+ pad2 (month t) +:+ "-" +:+ pad2 (day t)
       +:+ "_" +:+ pad2 (hour t).

(** [t.strftime("%d.%m.%Y %H:%M")] *)
Definition strftime_minute (t : datetime) : string :=
  pad2 (day t) +:+ "." +:+ pad2 (month t) +:+ "." +:+ pad4 (year t)
       +:+ " " +:+ pad2 (hour t) +:+ ":" +:+ pad2 (minute t).

(** 2024-03-01T00:30:00 (a leap year: two hours earlier is February 29). *)
Definition t_2024_03_01_0030 : datetime := (19783 * 24) * usec_per_hour + 30 * usec_per_minute.

End Datetime.

Import Datetime.

(* ===================================================================== *)
(** ** Data model *)
(* ===================================================================== *)

(** A JSON value received in a request body or a subscriber message
    (scalars only: arrays and nested objects are not modelled). *)
Inductive json :=
| JNull
| JBool (b : bool)
| JNum (n : Py.num)
| JStr (s : string).

(** A request body or message payload: a JSON object. *)
Abbreviation payload := (gmap string json).

(** The OBD commands the code issues. *)
Inductive command :=
| RPM | SPEED | ENGINE_LOAD | COOLANT_TEMP | OIL_TEMP | INTAKE_PRESSURE
| FUEL_LEVEL | CONTROL_MODULE_VOLTAGE | AIR_FUEL_RATIO | GET_DTC.

(** An OBD response: null, a quantity with its magnitude, or a list of
    trouble codes (each already rendered by [str]). *)
Inductive response :=
| Null
| Quantity (magnitude : Py.num)
| DtcList (codes : list string).

(** What [connection.query(cmd)] does: it returns a response or raises. *)
Inductive outcome :=
| Ret (r : response)
| Raises (x : Py.exn).

Record connection := {
  is_connected : bool;
  query : command → outcome
}.

Record fault := {
  code : string;
  title : string;
  description : string;
  time : string
}.

Record station := { name : string; freq : string }.

Record radio := {
  stations : list station;
  current_station : json;
  is_playing : json;
  volume : json
}.

Record log_entry := {
  timestamp : datetime;
  sensors : gmap string Py.num
}.

(** A Python file object: the path it was opened on and whether it has
    been closed. *)
Record file := { path : string; closed : bool }.

(** File-system calls, in the order they were performed. *)
Inductive fs_op :=
| Close (p : string)
| Open (p : string)
| Remove (p : string)
| Write (p : string).

(** Events published to every subscriber ([socketio.emit] from the
    loops and the POST handlers, [emit(..., broadcast=True)] from the
    subscriber message handlers). *)
Inductive event :=
| sensor_update (snapshot : gmap string Py.num)
| alert (type message : string) (value : Py.num)
| error_update (faults : list fault)
| control_update (control : string) (state : json)
| radio_update (r : radio).

(** The module's global variables, the log directory and the trace of
    what has been done to the outside world. *)
Record state := {
  sensor_data : gmap string Py.num;
  error_codes : list fault;
  control_states : gmap string json;
  radio_data : radio;
  current_log_file : option file;
  last_hour : option string;
  files : gmap string (list log_entry);
  fs_trace : list fs_op;
  emitted : list event;
  clock_reads : nat;
  draws : nat
}.

(** What one invocation finds outside the program: the [connection]
    global and what the OBD library answers, the [n]-th value of
    [random.random()] and of [datetime.now()], and whether opening and
    writing a log file succeed. *)
Record env := {
  conn : option connection;
  afr_command : bool;
  random : nat → float;
  now : nat → datetime;
  open_ok : bool;
  write_ok : bool
}.

Definition set_sensor_data (f : gmap string Py.num → gmap string Py.num) (st : state) : state :=
  {| sensor_data := f (sensor_data st); error_codes := error_codes st;
     control_states := control_states st; radio_data := radio_data st;
     current_log_file := current_log_file st; last_hour := last_hour st;
     files := files st; fs_trace := fs_trace st; emitted := emitted st;
     clock_reads := clock_reads st; draws := draws st |}.

Definition set_error_codes (f : list fault → list fault) (st : state) : state :=
  {| sensor_data := sensor_data st; error_codes := f (error_codes st);
     control_states := control_states st; radio_data := radio_data st;
     current_log_file := current_log_file st; last_hour := last_hour st;
     files := files st; fs_trace := fs_trace st; emitted := emitted st;
     clock_reads := clock_reads st; draws := draws st |}.

Definition set_control_states (f : gmap string json → gmap string json) (st : state) : state :=
  {| sensor_data := sensor_data st; error_codes := error_codes st;
     control_states := f (control_states st); radio_data := radio_data st;
     current_log_file := current_log_file st; last_hour := last_hour st;
     files := files st; fs_trace := fs_trace st; emitted := emitted st;
     clock_reads := clock_reads st; draws := draws st |}.

Definition set_radio_data (f : radio → radio) (st : state) : state :=
  {| sensor_data := sensor_data st; error_codes := error_codes st;
     control_states := control_states st; radio_data := f (radio_data st);
     current_log_file := current_log_file st; last_hour := last_hour st;
     files := files st; fs_trace := fs_trace st; emitted := emitted st;
     clock_reads := clock_reads st; draws := draws st |}.

Definition set_current_log_file (f : option file → option file) (st : state) : state :=
  {| sensor_data := sensor_data st; error_codes := error_codes st;
     control_states := control_states st; radio_data := radio_data st;
     current_log_file := f (current_log_file st); last_hour := last_hour st;
     files := files st; fs_trace := fs_trace st; emitted := emitted st;
     clock_reads := clock_reads st; draws := draws st |}.

Definition set_last_hour (f : option string → option string) (st : state) : state :=
  {| sensor_data := sensor_data st; error_codes := error_codes st;
     control_states := control_states st; radio_data := radio_data st;
     current_log_file := current_log_file st; last_hour := f (last_hour st);
     files := files st; fs_trace := fs_trace st; emitted := emitted st;
     clock_reads := clock_reads st; draws := draws st |}.

Definition set_files (f : gmap string (list log_entry) → gmap string (list log_entry)) (st : state) : state :=
  {| sensor_data := sensor_data st; error_codes := error_codes st;
     control_states := control_states st; radio_data := radio_data st;
     current_log_file := current_log_file st; last_hour := last_hour st;
     files := f (files st); fs_trace := fs_trace st; emitted := emitted st;
     clock_reads := clock_reads st; draws := draws st |}.

Definition set_fs_trace (f : list fs_op → list fs_op) (st : state) : state :=
  {| sensor_data := sensor_data st; error_codes := error_codes st;
     control_states := control_states st; radio_data := radio_data st;
     current_log_file := current_log_file st; last_hour := last_hour st;
     files := files st; fs_trace := f (fs_trace st); emitted := emitted st;
     clock_reads := clock_reads st; draws := draws st |}.

Definition set_emitted (f : list event → list event) (st : state) : state :=
  {| sensor_data := sensor_data st; error_codes := error_codes st;
     control_states := control_states st; radio_data := radio_data st;
     current_log_file := current_log_file st; last_hour := last_hour st;
     files := files st; fs_trace := fs_trace st; emitted := f (emitted st);
     clock_reads := clock_reads st; draws := draws st |}.

Definition set_clock_reads (f : nat → nat) (st : state) : state :=
  {| sensor_data := sensor_data st; error_codes := error_codes st;
     control_states := control_states st; radio_data := radio_data st;
     current_log_file := current_log_file st; last_hour := last_hour st;
     files := files st; fs_trace := fs_trace st; emitted := emitted st;
     clock_reads := f (clock_reads st); draws := draws st |}.

Definition set_draws (f : nat → nat) (st : state) : state :=
  {| sensor_data := sensor_data st; error_codes := error_codes st;
     control_states := control_states st; radio_data := radio_data st;
     current_log_file := current_log_file st; last_hour := last_hour st;
     files := files st; fs_trace := fs_trace st; emitted := emitted st;
     clock_reads := clock_reads st; draws := f (draws st) |}.

(* ===================================================================== *)
(** ** The monad of the modelled code: environment, state, exceptions *)
(* ===================================================================== *)

(** A computation reads the environment, updates the global state and
    returns a value or raises; the state reached when it raises is kept
    (assignments made before a Python exception are not undone). *)
Definition M (A : Type) : Type := env → state → (Py.exn + A) * state.

#[export] Instance M_ret : MRet M := λ A a _ st, (inr a, st).

#[export] Instance M_bind : MBind M := λ A B k m e st,
  match m e st with
  | (inr a, st') => k a e st'
  | (inl x, st') => (inl x, st')
  end.

Definition raise {A} (x : Py.exn) : M A := λ _ st, (inl x, st).

(** [try: m except: h] (a bare [except] catches everything). *)
Definition try_except {A} (m h : M A) : M A := λ e st,
  match m e st with
  | (inl _, st') => h e st'
  | r => r
  end.

Definition ask {A} (f : env → A) : M A := λ e st, (inr (f e), st).
Definition get {A} (f : state → A) : M A := λ _ st, (inr (f st), st).
Definition modify (f : state → state) : M unit := λ _ st, (inr tt, f st).
Definition skip : M unit := mret tt.

Definition lift {A} (r : Py.exn + A) : M A := λ _ st, (r, st).

(** [datetime.now()] *)
Definition datetime_now : M datetime := λ e st,
  (inr (now e (clock_reads st)), set_clock_reads S st).

(** [random.random()] *)
Definition random_random : M float := λ e st,
  (inr (random e (draws st)), set_draws S st).

(** [socketio.emit(name, data)] *)
Definition emit (ev : event) : M unit := modify (set_emitted (λ l, l ++ [ev])).

(* ===================================================================== *)
(** ** Global state at start-up (lines 41-84) *)
(* ===================================================================== *)

Definition LOG_DIR : string := "logs".

Definition initial_sensor_data : gmap string Py.num :=
  <["turbo_pressure" := Py.PyFloat 1.2]> (
  <["air_fuel_ratio" := Py.PyFloat 14.7]> (
  <["rpm" := Py.PyInt 0]> (
  <["speed" := Py.PyInt 0]> (
  <["fuel_consumption" := Py.PyInt 0]> (
  <["motor_load" := Py.PyInt 0]> (
  <["motor_temp" := Py.PyInt 0]> (
  <["oil_temp" := Py.PyInt 0]> (
  <["battery_voltage" := Py.PyInt 0]> ∅)))))))).

Definition initial_control_states : gmap string json :=
  <["light" := JBool true]> (
  <["seat_heating" := JBool false]> (
  <["seat_cooling" := JBool false]> (
  <["steering_heating" := JBool false]> (
  <["spotlight" := JBool false]> (
  <["screen_switch" := JBool false]> ∅))))).

Definition initial_radio_data : radio :=
  {| stations :=
       [ {| name := "Power FM 98.5"; freq := "98.5" |};
         {| name := "Best FM 95.7"; freq := "95.7" |};
         {| name := "Number 1 FM 92.0"; freq := "92.0" |};
         {| name := "Radyo D 90.8"; freq := "90.8" |};
         {| name := "Joy FM 94.3"; freq := "94.3" |} ];
     current_station := JNum (Py.PyInt 0);
     is_playing := JBool true;
     volume := JNum (Py.PyInt 70) |}.

(** The state when the module has been loaded, over a log directory
    holding [dir]. *)
Definition initial_state (dir : gmap string (list log_entry)) : state :=
  {| sensor_data := initial_sensor_data;
     error_codes := [];
     control_states := initial_control_states;
     radio_data := initial_radio_data;
     current_log_file := None;
     last_hour := None;
     files := dir;
     fs_trace := [];
     emitted := [];
     clock_reads := 0;
     draws := 0 |}.

(* ===================================================================== *)
(** ** Log rotation (lines 86-120) *)
(* ===================================================================== *)

Definition log_path (t : datetime) : string :=
  LOG_DIR +:+ "/sensor_data_" +:+ strftime_hour t +:+ ".json".

Definition get_log_filename : M string :=
  now ← datetime_now;
  mret (log_path now).

(** [f.close()] on the file object held in [current_log_file]. *)
Definition file_close (f : file) : M unit :=
  modify (set_fs_trace (λ l, l ++ [Close (path f)]));;
  modify (set_current_log_file (λ _, Some {| path := path f; closed := true |})).

(** [open(p, "a")]: creates the file when it is absent; raises when the
    environment refuses. *)
Definition file_open (p : string) : M file :=
  ok ← ask open_ok;
  if ok : bool then
    modify (set_fs_trace (λ l, l ++ [Open p]));;
    modify (set_files (λ d, match d !! p with Some _ => d | None => <[p := []]> d end));;
    mret {| path := p; closed := false |}
  else raise Py.OSError.

(** [os.path.exists(p)] and [os.remove(p)] *)
Definition os_path_exists (p : string) : M bool :=
  d ← get files;
  mret (bool_decide (is_Some (d !! p))).

Definition os_remove (p : string) : M unit :=
  modify (set_fs_trace (λ l, l ++ [Remove p]));;
  modify (set_files (delete p)).

(** [f.write(line); f.flush()]: the entry reaches the file the handle
    was opened on (nothing visible if that file has been removed since). *)
Definition file_write (f : file) (entry : log_entry) : M unit :=
  if closed f then raise Py.ValueError
  else
    ok ← ask write_ok;
    if ok : bool then
      modify (set_fs_trace (λ l, l ++ [Write (path f)]));;
      modify (set_files (alter (λ lines, lines ++ [entry]) (path f)))
    else raise Py.OSError.

Definition rotate_logs : M unit :=
  now ← datetime_now;
  let current_hour := strftime_hour now in
  last ← get last_hour;
  if bool_decide (Some current_hour ≠ last) then
    cur ← get current_log_file;
    match cur with
    | Some f => file_close f
    | None => skip
    end;;
    (* Create new log file *)
    filename ← get_log_filename;
    f ← file_open filename;
    modify (set_current_log_file (λ _, Some f));;
    modify (set_last_hour (λ _, Some current_hour));;
    (* Delete logs older than 2 hours *)
    let two_hours_ago := sub_hours now 2 in
    let old_file := log_path two_hours_ago in
    found ← os_path_exists old_file;
    if found : bool then os_remove old_file else skip
  else skip.

Definition log_sensor_data : M unit :=
  rotate_logs;;
  t ← datetime_now;
  sd ← get sensor_data;
  let entry := {| timestamp := t; sensors := sd |} in
  cur ← get current_log_file;
  match cur with
  | Some f => file_write f entry
  | None => skip
  end.

(* ===================================================================== *)
(** ** Sensor acquisition (lines 122-209, 262-273) *)
(* ===================================================================== *)

(** [sensor_data[key] = v] *)
Definition store (key : string) (v : Py.num) : M unit :=
  modify (set_sensor_data (<[key := v]>)).

(** [sensor_data[key]] *)
Definition load (key : string) : M Py.num :=
  sd ← get sensor_data;
  match sd !! key with
  | Some v => mret v
  | None => raise Py.KeyError
  end.

(** [connection.query(cmd)] *)
Definition connection_query (c : connection) (cmd : command) : M response :=
  match query c cmd with
  | Ret r => mret r
  | Raises x => raise x
  end.

Definition is_null (r : response) : bool :=
  match r with Null => true | _ => false end.

(** [response.value.magnitude] *)
Definition magnitude_of (r : response) : M Py.num :=
  match r with
  | Quantity m => mret m
  | _ => raise Py.AttributeError
  end.

Definition simulate_obd_data : M unit :=
  r ← random_random;
  store "turbo_pressure" (Py.PyFloat (Py.round1_float (0.8 + r * 0.8)));;
  r ← random_random;
  store "air_fuel_ratio" (Py.PyFloat (Py.round1_float (14.0 + r * 1.5)));;
  r ← random_random;
  z ← lift (Py.int_of_float (1500 + r * 2500));
  store "rpm" (Py.PyInt z);;
  r ← random_random;
  z ← lift (Py.int_of_float (60 + r * 80));
  store "speed" (Py.PyInt z);;
  r ← random_random;
  store "fuel_consumption" (Py.PyFloat (Py.round1_float (6.0 + r * 3.0)));;
  r ← random_random;
  z ← lift (Py.int_of_float (40 + r * 40));
  store "motor_load" (Py.PyInt z);;
  r ← random_random;
  z ← lift (Py.int_of_float (85 + r * 25));
  store "motor_temp" (Py.PyInt z);;
  r ← random_random;
  z ← lift (Py.int_of_float (80 + r * 20));
  store "oil_temp" (Py.PyInt z);;
  r ← random_random;
  store "battery_voltage" (Py.PyFloat (Py.round1_float (12.0 + r * 0.8))).

(** The block repeated for RPM, SPEED, ENGINE_LOAD, COOLANT_TEMP and
    OIL_TEMP: query, then 0 on a null response, else
    [int(response.value.magnitude)]. *)
Definition read_int (c : connection) (cmd : command) (key : string) : M unit :=
  response ← connection_query c cmd;
  if is_null response then store key (Py.PyInt 0)
  else
    m ← magnitude_of response;
    z ← lift (Py.int m);
    store key (Py.PyInt z).

Definition get_obd_data : M unit :=
  c ← ask conn;
  match c with
  | None => simulate_obd_data
  | Some c =>
    if negb (is_connected c) then simulate_obd_data
    else
      read_int c RPM "rpm";;
      read_int c SPEED "speed";;
      read_int c ENGINE_LOAD "motor_load";;
      read_int c COOLANT_TEMP "motor_temp";;
      read_int c OIL_TEMP "oil_temp";;
      (* Intake Pressure (used for turbo pressure) *)
      response ← connection_query c INTAKE_PRESSURE;
      (if is_null response then store "turbo_pressure" (Py.PyInt 0)
       else
         m ← magnitude_of response;
         (* Convert kPa to bar (1 bar = 100 kPa) *)
         bar ← lift (Py.truediv m 100);
         store "turbo_pressure" (Py.PyFloat (Py.round1_float bar)));;
      (* Fuel Level *)
      response ← connection_query c FUEL_LEVEL;
      (if is_null response then store "fuel_consumption" (Py.PyInt 0)
       else
         fuel_percent ← magnitude_of response;
         if Py.gt fuel_percent (Py.PyInt 0) then
           tenth ← lift (Py.truediv fuel_percent 10);
           store "fuel_consumption" (Py.PyFloat (Py.round1_float (10 - tenth)))
         else store "fuel_consumption" (Py.PyInt 0));;
      (* Battery Voltage *)
      response ← connection_query c CONTROL_MODULE_VOLTAGE;
      (if is_null response then store "battery_voltage" (Py.PyInt 0)
       else
         m ← magnitude_of response;
         store "battery_voltage" (Py.round1 m));;
      (* Air Fuel Ratio (if supported) *)
      try_except
        (supported ← ask afr_command;
         if supported : bool then
           response ← connection_query c AIR_FUEL_RATIO;
           if is_null response then store "air_fuel_ratio" (Py.PyFloat 14.7)
           else
             m ← magnitude_of response;
             store "air_fuel_ratio" (Py.round1 m)
         else raise Py.AttributeError)
        (store "air_fuel_ratio" (Py.PyFloat 14.7))
  end.

(* ===================================================================== *)
(** ** Trouble codes (lines 211-260) *)
(* ===================================================================== *)

(** The demo codes, also the first four rows of the lookup table. *)
Definition P0300_title := "Rastgele Silindir Ateşleme Hatası".
Definition P0300_description :=
  "Motorun silindirlerinden birinde veya birkaçında ateşleme hatası tespit edildi.".
Definition P0171_title := "Sistem Zayıf (Bank 1)".
Definition P0171_description := "Motorun yakıt sistemi çok fakir bir karışım sağlıyor.".
Definition P0420_title := "Katalitik Konvertör Verimliliği".
Definition P0420_description := "Katalitik konvertörün verimliliği eşik değerin altında.".
Definition P0455_title := "Emme Kontrol Sistemi Büyük Sızıntı".
Definition P0455_description :=
  "Yakıt buharı emme kontrol sisteminde büyük bir sızıntı tespit edildi.".

(** DTC descriptions mapping: code to (title, description). *)
Definition dtc_descriptions : gmap string (string * string) :=
  list_to_map
    [ ("P0300", (P0300_title, P0300_description));
      ("P0171", (P0171_title, P0171_description));
      ("P0420", (P0420_title, P0420_description));
      ("P0455", (P0455_title, P0455_description));
      ("P0101", ("MAF Sensörü Devre Aralığı/Performans",
                 "Kütle hava akış sensöründe aralık veya performans sorunu."));
      ("P0135", ("O2 Sensörü Isıtıcı Devresi (Bank 1, Sensör 1)",
                 "Oksijen sensörü ısıtıcı devresinde arıza."));
      ("P0301", ("Silindir 1 Ateşleme Hatası",
                 "Silindir 1'de ateşleme hatası tespit edildi."));
      ("P0442", ("Emme Kontrol Sistemi Küçük Sızıntı",
                 "Yakıt buharı emme kontrol sisteminde küçük bir sızıntı tespit edildi."));
      ("P0500", ("Hız Sensörü", "Araç hızı sensöründe arıza.")) ].

Definition generic_title (code : string) : string := "Hata Kodu " +:+ code.
Definition generic_description : string := "Tanımlanmamış hata kodu.".

(** [dtc_descriptions.get(code, {...generic...})] *)
Definition describe (code : string) : string * string :=
  default (generic_title code, generic_description) (dtc_descriptions !! code).

(** One demo row: its fields are fixed, its time is read from the clock. *)
Definition demo_fault (c t d : string) : M fault :=
  now ← datetime_now;
  mret {| code := c; title := t; description := d; time := strftime_minute now |}.

(** The body of [for dtc in dtc_list]. *)
Definition append_fault (dtc : string) : M unit :=
  let code := dtc in
  let description := describe code in
  now ← datetime_now;
  modify (set_error_codes (λ l, l ++
    [ {| code := code; title := fst description;
         description := snd description; time := strftime_minute now |} ])).

Fixpoint for_each {A} (body : A → M unit) (l : list A) : M unit :=
  match l with
  | [] => skip
  | x :: rest => body x;; for_each body rest
  end.

(** [response.value] of a GET_DTC response, iterated by the [for]. *)
Definition dtc_list_of (r : response) : M (list string) :=
  match r with
  | DtcList l => mret l
  | _ => raise Py.TypeError
  end.

Definition connection_available (c : option connection) : bool :=
  match c with
  | None => false
  | Some c => is_connected c
  end.

(** The fallback assigned when there is no connection (lines 217-222). *)
Definition demo_error_codes : M unit :=
  f1 ← demo_fault "P0300" P0300_title P0300_description;
  f2 ← demo_fault "P0171" P0171_title P0171_description;
  f3 ← demo_fault "P0420" P0420_title P0420_description;
  f4 ← demo_fault "P0455" P0455_title P0455_description;
  modify (set_error_codes (λ _, [f1; f2; f3; f4])).

Definition get_dtc_codes : M unit :=
  c ← ask conn;
  match c with
  | None => demo_error_codes
  | Some c =>
    if negb (is_connected c) then demo_error_codes
    else
      (* Get DTC codes *)
      response ← connection_query c GET_DTC;
      if is_null response then modify (set_error_codes (λ _, []))
      else
        modify (set_error_codes (λ _, []));;
        dtc_list ← dtc_list_of response;
        for_each append_fault dtc_list
  end.

(* ===================================================================== *)
(** ** The two periodic loops (lines 275-306) *)
(* ===================================================================== *)

Definition high_temperature_message : string := "Motor sıcaklığı kritik seviyede!".
Definition low_voltage_message : string := "Akü voltajı düşük!".

(** One iteration of [update_sensors], up to the [time.sleep(0.5)]. *)
Definition update_sensors_body : M unit :=
  get_obd_data;;
  log_sensor_data;;
  (* Send sensor data via WebSocket *)
  sd ← get sensor_data;
  emit (sensor_update sd);;
  (* Check for critical values and send alerts *)
  motor_temp ← load "motor_temp";
  (if Py.gt motor_temp (Py.PyInt 100) then
     v ← load "motor_temp";
     emit (alert "warning" high_temperature_message v)
   else skip);;
  battery_voltage ← load "battery_voltage";
  (if Py.lt battery_voltage (Py.PyFloat 12.0) then
     v ← load "battery_voltage";
     emit (alert "warning" low_voltage_message v)
   else skip).

(** One iteration of [update_errors], up to the [time.sleep(900)]. *)
Definition update_errors_body : M unit :=
  get_dtc_codes;;
  codes ← get error_codes;
  emit (error_update codes).

(** [while True: body; sleep]: the iterations that the given
    environments drive, one environment per iteration. An exception
    leaves the loop (nothing in it catches one), and with it the thread
    that runs the loop. *)
Fixpoint while_true (body : M unit) (envs : list env) (st : state)
  : (Py.exn + unit) * state :=
  match envs with
  | [] => (inr tt, st)
  | e :: rest =>
      match body e st with
      | (inr _, st') => while_true body rest st'
      | (inl x, st') => (inl x, st')
      end
  end.

Definition update_sensors : list env → state → (Py.exn + unit) * state :=
  while_true update_sensors_body.

Definition update_errors : list env → state → (Py.exn + unit) * state :=
  while_true update_errors_body.

(* ===================================================================== *)
(** ** Control and radio mutations (lines 325-371, 401-429) *)
(* ===================================================================== *)

(** The JSON body and status code a POST handler returns. *)
Inductive body :=
| success
| success_control (control : string) (state : json)
| failure (error : string).

Abbreviation http_response := (body * Z)%type.

(** A JSON value used as a number in a comparison: a bool counts as 0
    or 1, a string or null raises [TypeError]. *)
Definition as_num (v : json) : Py.exn + Py.num :=
  match v with
  | JNum n => inr n
  | JBool b => inr (Py.PyInt (if b then 1 else 0))
  | _ => inl Py.TypeError
  end.

(** [0 <= v < n] *)
Definition in_index_range (v : json) (n : Z) : M bool :=
  x ← lift (as_num v);
  mret (Py.le (Py.PyInt 0) x && Py.lt x (Py.PyInt n)).

(** [0 <= v <= 100] *)
Definition in_volume_range (v : json) : M bool :=
  x ← lift (as_num v);
  mret (Py.le (Py.PyInt 0) x && Py.le x (Py.PyInt 100)).

Definition with_current_station (v : json) (r : radio) : radio :=
  {| stations := stations r; current_station := v;
     is_playing := is_playing r; volume := volume r |}.
Definition with_is_playing (v : json) (r : radio) : radio :=
  {| stations := stations r; current_station := current_station r;
     is_playing := v; volume := volume r |}.
Definition with_volume (v : json) (r : radio) : radio :=
  {| stations := stations r; current_station := current_station r;
     is_playing := is_playing r; volume := v |}.

(** POST /api/control/<control_name> *)
Definition set_control (control_name : string) (data : payload) : M http_response :=
  cs ← get control_states;
  if bool_decide (is_Some (cs !! control_name)) then
    match data !! "state" with
    | Some v =>
        modify (set_control_states (<[control_name := v]>));;
        (* Send control update via WebSocket; control_states[control_name],
           read back for the event and the response, is [v] *)
        emit (control_update control_name v);;
        mret (success_control control_name v, 200)
    | None => mret (failure "Invalid control", 400)
    end
  else mret (failure "Invalid control", 400).

(** POST /api/radio/station *)
Definition set_radio_station (data : payload) : M http_response :=
  match data !! "station" with
  | Some v =>
      rd ← get radio_data;
      ok ← in_index_range v (Z.of_nat (length (stations rd)));
      if ok : bool then
        modify (set_radio_data (with_current_station v));;
        rd ← get radio_data;
        emit (radio_update rd);;
        mret (success, 200)
      else mret (failure "Invalid station", 400)
  | None => mret (failure "Invalid station", 400)
  end.

(** POST /api/radio/play *)
Definition set_radio_play (data : payload) : M http_response :=
  match data !! "playing" with
  | Some v =>
      modify (set_radio_data (with_is_playing v));;
      rd ← get radio_data;
      emit (radio_update rd);;
      mret (success, 200)
  | None => mret (failure "Missing parameter", 400)
  end.

(** POST /api/radio/volume *)
Definition set_radio_volume (data : payload) : M http_response :=
  match data !! "volume" with
  | Some v =>
      ok ← in_volume_range v;
      if ok : bool then
        modify (set_radio_data (with_volume v));;
        rd ← get radio_data;
        emit (radio_update rd);;
        mret (success, 200)
      else mret (failure "Invalid volume", 400)
  | None => mret (failure "Invalid volume", 400)
  end.

(** [data.get(key)]: Python's [None] (JSON null) when the key is absent. *)
Definition dict_get (data : payload) (key : string) : json :=
  default JNull (data !! key).

(** Subscriber message [control_change]. Only a string can be a key of
    [control_states]. *)
Definition handle_control_change (data : payload) : M unit :=
  let control_name := dict_get data "control" in
  let state := dict_get data "state" in
  cs ← get control_states;
  match control_name with
  | JStr control_name =>
      if bool_decide (is_Some (cs !! control_name)) then
        modify (set_control_states (<[control_name := state]>));;
        (* Broadcast the control change to all clients *)
        emit (control_update control_name state)
      else skip
  | _ => skip
  end.

(** Subscriber message [radio_change]. *)
Definition handle_radio_change (data : payload) : M unit :=
  match data !! "station" with
  | Some v =>
      rd ← get radio_data;
      ok ← in_index_range v (Z.of_nat (length (stations rd)));
      if ok : bool then
        modify (set_radio_data (with_current_station v));;
        rd ← get radio_data;
        emit (radio_update rd)
      else skip
  | None => skip
  end;;
  match data !! "playing" with
  | Some v =>
      modify (set_radio_data (with_is_playing v));;
      rd ← get radio_data;
      emit (radio_update rd)
  | None => skip
  end;;
  match data !! "volume" with
  | Some v =>
      ok ← in_volume_range v;
      if ok : bool then
        modify (set_radio_data (with_volume v));;
        rd ← get radio_data;
        emit (radio_update rd)
      else skip
  | None => skip
  end.

(* ===================================================================== *)
(** ** The process (lines 431-446) *)
(* ===================================================================== *)

(** What can happen next in the running program: an iteration of one
    of the two daemon threads, the start-up calls of the main thread, a
    POST request, or a subscriber message. Each is taken as one step. *)
Inductive action :=
| sensor_tick
| error_tick
| main_startup
| post_control (control_name : string) (data : payload)
| post_radio_station (data : payload)
| post_radio_play (data : payload)
| post_radio_volume (data : payload)
| control_change (data : payload)
| radio_change (data : payload).

Record process := {
  globals : state;
  running : bool;
  sensor_thread : bool;
  error_thread : bool
}.

(** The process once the module is loaded and both threads started. *)
Definition boot (dir : gmap string (list log_entry)) : process :=
  {| globals := initial_state dir; running := true;
     sensor_thread := true; error_thread := true |}.

(** The main thread after starting the two threads: [rotate_logs()],
    [get_obd_data()], [get_dtc_codes()], then the server. *)
Definition main_body : M unit :=
  rotate_logs;;
  get_obd_data;;
  get_dtc_codes.

(** One iteration of a thread's loop: an uncaught exception ends the
    thread, and a thread that has ended does nothing more. *)
Definition iterate (body : M unit) (e : env) (alive : bool) (st : state)
  : bool * state :=
  if alive then
    match body e st with
    | (inr _, st') => (true, st')
    | (inl _, st') => (false, st')
    end
  else (false, st).

(** A request or message handler: its response goes to the client and
    an exception in it is reported by the server, which goes on. *)
Definition handle {A} (h : M A) (e : env) (st : state) : state := snd (h e st).

Definition step (e : env) (a : action) (p : process) : process :=
  if running p then
    match a with
    | sensor_tick =>
        let r := iterate update_sensors_body e (sensor_thread p) (globals p) in
        {| globals := snd r; running := true;
           sensor_thread := fst r; error_thread := error_thread p |}
    | error_tick =>
        let r := iterate update_errors_body e (error_thread p) (globals p) in
        {| globals := snd r; running := true;
           sensor_thread := sensor_thread p; error_thread := fst r |}
    | main_startup =>
        (* an exception in the main thread ends the process: the two
           threads are daemons *)
        match main_body e (globals p) with
        | (inr _, st') =>
            {| globals := st'; running := true;
               sensor_thread := sensor_thread p; error_thread := error_thread p |}
        | (inl _, st') =>
            {| globals := st'; running := false;
               sensor_thread := false; error_thread := false |}
        end
    | post_control control_name data =>
        {| globals := handle (set_control control_name data) e (globals p);
           running := true;
           sensor_thread := sensor_thread p; error_thread := error_thread p |}
    | post_radio_station data =>
        {| globals := handle (set_radio_station data) e (globals p);
           running := true;
           sensor_thread := sensor_thread p; error_thread := error_thread p |}
    | post_radio_play data =>
        {| globals := handle (set_radio_play data) e (globals p);
           running := true;
           sensor_thread := sensor_thread p; error_thread := error_thread p |}
    | post_radio_volume data =>
        {| globals := handle (set_radio_volume data) e (globals p);
           running := true;
           sensor_thread := sensor_thread p; error_thread := error_thread p |}
    | control_change data =>
        {| globals := handle (handle_control_change data) e (globals p);
           running := true;
           sensor_thread := sensor_thread p; error_thread := error_thread p |}
    | radio_change data =>
        {| globals := handle (handle_radio_change data) e (globals p);
           running := true;
           sensor_thread := sensor_thread p; error_thread := error_thread p |}
    end
  else p.

(** A run: the steps taken, each in the environment it finds. *)
Fixpoint run (steps : list (env * action)) (p : process) : process :=
  match steps with
  | [] => p
  | (e, a) :: rest => run rest (step e a p)
  end.

(* ===================================================================== *)
(** ** Predicates used in the statements *)
(* ===================================================================== *)

(** A property of the state that a computation keeps, whether it
    returns or raises. *)
Definition invariant (I : state → Prop) {A} (m : M A) : Prop :=
  ∀ e st, I st → I (snd (m e st)).

(** The nine channel ids of a telemetry snapshot. *)
Definition channel_ids : list string :=
  [ "turbo_pressure"; "air_fuel_ratio"; "rpm"; "speed"; "fuel_consumption";
    "motor_load"; "motor_temp"; "oil_temp"; "battery_voltage" ].

(** Every channel id is bound to a number. *)
Definition complete (sd : gmap string Py.num) : Prop :=
  ∀ k, k ∈ channel_ids → ∃ v : Py.num, sd !! k = Some v.

Definition sensors_complete (st : state) : Prop := complete (sensor_data st).

(** A query of one of the five truncated channels that the code gets
    through: a null response, or a quantity that [int()] accepts. *)
Definition int_readable (o : outcome) : bool :=
  match o with
  | Ret Null => true
  | Ret (Quantity m) => match Py.int m with inr _ => true | inl _ => false end
  | _ => false
  end.

(** A query of the battery voltage that the code gets through: a
    null response or a quantity. *)
Definition quantity_or_null (o : outcome) : bool :=
  match o with
  | Ret Null | Ret (Quantity _) => true
  | _ => false
  end.

(** A query of the intake pressure that the code gets through: a null
    response, or a quantity that can be divided by 100. *)
Definition turbo_readable (o : outcome) : bool :=
  match o with
  | Ret Null => true
  | Ret (Quantity m) => match Py.truediv m 100 with inr _ => true | inl _ => false end
  | _ => false
  end.

(** A query of the fuel level that the code gets through: a null
    response, or a quantity that, when positive, can be divided by 10. *)
Definition fuel_readable (o : outcome) : bool :=
  match o with
  | Ret Null => true
  | Ret (Quantity fuel_percent) =>
      if Py.gt fuel_percent (Py.PyInt 0)
      then match Py.truediv fuel_percent 10 with inr _ => true | inl _ => false end
      else true
  | _ => false
  end.

(** Every sensor query outside the [try] block gets through. *)
Definition pass_answers (c : connection) : bool :=
  int_readable (query c RPM) && int_readable (query c SPEED)
  && int_readable (query c ENGINE_LOAD) && int_readable (query c COOLANT_TEMP)
  && int_readable (query c OIL_TEMP)
  && turbo_readable (query c INTAKE_PRESSURE)
  && fuel_readable (query c FUEL_LEVEL)
  && quantity_or_null (query c CONTROL_MODULE_VOLTAGE).

(** What each block of [get_obd_data] stores, as a function of what
    the query did. *)
Definition int_reading (o : outcome) : Py.num :=
  match o with
  | Ret (Quantity m) => match Py.int m with inr z => Py.PyInt z | inl _ => Py.PyInt 0 end
  | _ => Py.PyInt 0
  end.

Definition turbo_reading (o : outcome) : Py.num :=
  match o with
  | Ret (Quantity m) =>
      match Py.truediv m 100 with
      | inr bar => Py.PyFloat (Py.round1_float bar)
      | inl _ => Py.PyInt 0
      end
  | _ => Py.PyInt 0
  end.

Definition fuel_reading (o : outcome) : Py.num :=
  match o with
  | Ret (Quantity fuel_percent) =>
      if Py.gt fuel_percent (Py.PyInt 0)
      then match Py.truediv fuel_percent 10 with
           | inr tenth => Py.PyFloat (Py.round1_float (10 - tenth))
           | inl _ => Py.PyInt 0
           end
      else Py.PyInt 0
  | _ => Py.PyInt 0
  end.

Definition voltage_reading (o : outcome) : Py.num :=
  match o with
  | Ret (Quantity m) => Py.round1 m
  | _ => Py.PyInt 0
  end.

Definition afr_reading (supported : bool) (o : outcome) : Py.num :=
  if supported then
    match o with
    | Ret (Quantity m) => Py.round1 m
    | _ => Py.PyFloat 14.7
    end
  else Py.PyFloat 14.7.

(** The snapshot a connected pass leaves when every query gets through. *)
Definition connected_snapshot (e : env) (c : connection)
    (sd : gmap string Py.num) : gmap string Py.num :=
  <["air_fuel_ratio" := afr_reading (afr_command e) (query c AIR_FUEL_RATIO)]> (
  <["battery_voltage" := voltage_reading (query c CONTROL_MODULE_VOLTAGE)]> (
  <["fuel_consumption" := fuel_reading (query c FUEL_LEVEL)]> (
  <["turbo_pressure" := turbo_reading (query c INTAKE_PRESSURE)]> (
  <["oil_temp" := int_reading (query c OIL_TEMP)]> (
  <["motor_temp" := int_reading (query c COOLANT_TEMP)]> (
  <["motor_load" := int_reading (query c ENGINE_LOAD)]> (
  <["speed" := int_reading (query c SPEED)]> (
  <["rpm" := int_reading (query c RPM)]> sd)))))))).

(** The events published between two states. *)
Definition published (st st' : state) : list event :=
  drop (length (emitted st)) (emitted st').

(** An [alert] event carrying the given message. *)
Definition is_alert (message : string) (ev : event) : bool :=
  match ev with
  | alert _ m _ => String.eqb m message
  | _ => false
  end.

(** The alerts that the threshold checks of one tick publish for a
    snapshot. *)
Definition alerts_for (sd : gmap string Py.num) : list event :=
  match sd !! "motor_temp" with
  | Some v =>
      if Py.gt v (Py.PyInt 100)
      then [alert "warning" high_temperature_message v] else []
  | None => []
  end ++
  match sd !! "battery_voltage" with
  | Some v =>
      if Py.lt v (Py.PyFloat 12.0)
      then [alert "warning" low_voltage_message v] else []
  | None => []
  end.

(** The four demo rows, stamped with the clock readings [n], [n+1],
    [n+2] and [n+3]. *)
Definition demo_faults (e : env) (n : nat) : list fault :=
  [ {| code := "P0300"; title := P0300_title; description := P0300_description;
       time := strftime_minute (now e n) |};
    {| code := "P0171"; title := P0171_title; description := P0171_description;
       time := strftime_minute (now e (S n)) |};
    {| code := "P0420"; title := P0420_title; description := P0420_description;
       time := strftime_minute (now e (S (S n))) |};
    {| code := "P0455"; title := P0455_title; description := P0455_description;
       time := strftime_minute (now e (S (S (S n)))) |} ].

(** The rows that the loop over [dtc_list] appends, the first one
    stamped with the clock reading [n]. *)
Fixpoint faults_from (e : env) (n : nat) (dtc_list : list string) : list fault :=
  match dtc_list with
  | [] => []
  | raw :: rest =>
      {| code := raw; title := fst (describe raw);
         description := snd (describe raw);
         time := strftime_minute (now e n) |} :: faults_from e (S n) rest
  end.

(** Whether a POST request was accepted (status 200); anything else,
    a 400 response or an exception in the handler, is a rejection. *)
Definition accepted (r : Py.exn + http_response) : bool :=
  match r with
  | inr (_, 200) => true
  | _ => false
  end.

(** The three radio POST handlers applied in turn to one body, their
    responses dropped. *)
Definition radio_posts (data : payload) : M unit :=
  set_radio_station data;;
  set_radio_play data;;
  set_radio_volume data;;
  mret tt.

(** The log handle is usable: a file object is held and it is open,
    or none is held yet and no hour is tracked (the state at start-up). *)
Definition log_ready (st : state) : Prop :=
  match current_log_file st with
  | Some f => closed f = false
  | None => last_hour st = None
  end.

(** The hour bucket of a time, as a number of hours. *)
Definition hour_bucket (t : datetime) : Z := t / usec_per_hour.

(** The tracked hour is that of [t], and the directory holds no log
    file other than those of [t]'s hour and of the hour before. *)
Definition two_newest (t : datetime) (st : state) : Prop :=
  last_hour st = Some (strftime_hour t)
  ∧ ∀ p, is_Some (files st !! p) → p = log_path t ∨ p = log_path (sub_hours t 1).

(* ===================================================================== *)
(** ** Sample environments *)
(* ===================================================================== *)

Module Sample.

(** A clock that stays within 2024-03-01 00:30. *)
Definition frozen_clock : nat → datetime := λ _, t_2024_03_01_0030.

(** The environment of an invocation that finds connection [c], a
    clock reading [clock], random draws of 0.5 and a writable log
    directory. *)
Definition env_of (c : option connection) (clock : nat → datetime) : env :=
  {| conn := c; afr_command := true; random := λ _, 0.5%float;
     now := clock; open_ok := true; write_ok := true |}.

(** A connected interface whose every query reports no data. *)
Definition no_data : connection :=
  {| is_connected := true; query := λ _, Ret Null |}.

(** A connected interface whose RPM query raises, as on a transport
    error, and whose other queries report no data. *)
Definition rpm_raises : connection :=
  {| is_connected := true;
     query := λ cmd, match cmd with RPM => Raises Py.OSError | _ => Ret Null end |}.

(** A connected interface reading 202 kPa of intake pressure, a fuel
    level of 55 %, a coolant temperature of 101 and 11.9 V. *)
Definition warm_engine : connection :=
  {| is_connected := true;
     query := λ cmd,
       match cmd with
       | INTAKE_PRESSURE => Ret (Quantity (Py.PyInt 202))
       | FUEL_LEVEL => Ret (Quantity (Py.PyInt 55))
       | COOLANT_TEMP => Ret (Quantity (Py.PyInt 101))
       | CONTROL_MODULE_VOLTAGE => Ret (Quantity (Py.PyFloat 11.9))
       | RPM => Ret (Quantity (Py.PyFloat 2250.75))
       | _ => Ret Null
       end |}.

(** The same interface with a coolant temperature of 99, an empty
    tank and 12.6 V. *)
Definition cool_engine : connection :=
  {| is_connected := true;
     query := λ cmd,
       match cmd with
       | FUEL_LEVEL => Ret (Quantity (Py.PyInt 0))
       | COOLANT_TEMP => Ret (Quantity (Py.PyInt 99))
       | CONTROL_MODULE_VOLTAGE => Ret (Quantity (Py.PyFloat 12.6))
       | _ => Ret Null
       end |}.

End Sample.

(** Sample clocks and log directories for the rotation. *)
Module SampleLogs.

Definition t_now : datetime := t_2024_03_01_0030.

(** A clock that reads [h] hours after [t_now] at every call. *)
Definition hours_later (h : Z) : nat → datetime :=
  λ _, t_now + h * usec_per_hour.

(** The environment of a simulated tick [h] hours after [t_now]. *)
Definition tick_at (h : Z) : env := Sample.env_of None (hours_later h).

(** A log directory holding empty files for the hours now-1, now-2
    and now-3. *)
Definition fabricated : gmap string (list log_entry) :=
  <[log_path (sub_hours t_now 1) := []]> (
  <[log_path (sub_hours t_now 2) := []]> (
  <[log_path (sub_hours t_now 3) := []]> ∅)).

(** Ticks in the hours 0, 1, 3, 4, 6 and 7 after [t_now]: the hours 2
    and 5 are skipped (no tick completed in them). *)
Definition skipping_hours : list (env * action) :=
  [ (tick_at 0, sensor_tick); (tick_at 1, sensor_tick);
    (tick_at 3, sensor_tick); (tick_at 4, sensor_tick);
    (tick_at 6, sensor_tick); (tick_at 7, sensor_tick) ].

End SampleLogs.

(** Sample environments for the loops. *)
Module SampleLoops.

(** A simulated tick during which writing to the log file fails. *)
Definition write_fails : env :=
  {| conn := None; afr_command := true; random := λ _, 0.5%float;
     now := Sample.frozen_clock; open_ok := true; write_ok := false |}.

(** A simulated tick during which nothing fails. *)
Definition all_well : env := Sample.env_of None Sample.frozen_clock.

End SampleLoops.

(* ===================================================================== *)
(** ** Read accessors and the replay on connect (lines 313-323, 339-341, 381-395) *)
(* ===================================================================== *)

(** GET /api/sensors, /api/errors, /api/controls and /api/radio: each
    returns [jsonify] of one global. *)
Definition get_sensors : M (gmap string Py.num) := get sensor_data.
Definition get_errors : M (list fault) := get error_codes.
Definition get_controls : M (gmap string json) := get control_states.
Definition get_radio : M radio := get radio_data.

(** The keys of [control_states] in the order of its dict literal. A
    Python dict iterates in insertion order, and assigning to a key it
    already holds keeps the key's place. *)
Definition control_names : list string :=
  [ "light"; "seat_heating"; "seat_cooling"; "steering_heating";
    "spotlight"; "screen_switch" ].

(** [control_states.items()], for a dict holding keys of the literal. *)
Definition control_items (cs : gmap string json) : list (string * json) :=
  omap (λ k, (λ v, (k, v)) <$> cs !! k) control_names.

(** Subscriber event [connect]. The handler's [emit]s carry no
    [broadcast=True]: they go to the connecting client alone, and are
    returned here in the order they are sent. *)
Definition handle_connect : M (list event) :=
  (* Send initial data to the newly connected client *)
  sd ← get sensor_data;
  codes ← get error_codes;
  (* Send each control state individually *)
  cs ← get control_states;
  rd ← get radio_data;
  mret ([sensor_update sd; error_update codes]
        ++ map (λ item, control_update (fst item) (snd item)) (control_items cs)
        ++ [radio_update rd]).

(* ===================================================================== *)
(** ** Further predicates and decompositions used in Part III *)
(* ===================================================================== *)

(** The control ids are those of the dict literal. *)
Definition control_ids_fixed (st : state) : Prop :=
  ∀ k, is_Some (control_states st !! k) ↔ k ∈ control_names.

(** The radio state passes the checks that the mutation handlers
    apply: the station list is the one of start-up, [0 <= volume <= 100]
    and [0 <= current_station < len(stations)] hold. *)
Definition radio_valid (st : state) : Prop :=
  stations (radio_data st) = stations initial_radio_data
  ∧ (∀ e st', in_volume_range (volume (radio_data st)) e st' = (inr true, st'))
  ∧ (∀ e st', in_index_range (current_station (radio_data st))
                (Z.of_nat (length (stations (radio_data st)))) e st' = (inr true, st')).

(** [st'] holds the control states and the radio state of [st]. *)
Definition same_controls_and_radio (st st' : state) : Prop :=
  control_states st' = control_states st ∧ radio_data st' = radio_data st.

(** [st'] holds the snapshot, the fault list, the log directory, the
    log handle and the tracked hour of [st], and no file-system call
    has been made in between. *)
Definition same_telemetry (st st' : state) : Prop :=
  sensor_data st' = sensor_data st ∧ error_codes st' = error_codes st
  ∧ files st' = files st ∧ fs_trace st' = fs_trace st
  ∧ current_log_file st' = current_log_file st ∧ last_hour st' = last_hour st.

(** The environment [e] with another value of the [connection] global. *)
Definition with_conn (c : option connection) (e : env) : env :=
  {| conn := c; afr_command := afr_command e; random := random e;
     now := now e; open_ok := open_ok e; write_ok := write_ok e |}.

(** The codes of the demo set. *)
Definition demo_codes : list string := ["P0300"; "P0171"; "P0420"; "P0455"].

(** *** The connected sampling pass, channel by channel *)

(** The eight channels that [get_obd_data] reads outside the [try]
    block, each with the key it stores, in the order of the code. *)
Definition bare_channels : list (command * string) :=
  [ (RPM, "rpm"); (SPEED, "speed"); (ENGINE_LOAD, "motor_load");
    (COOLANT_TEMP, "motor_temp"); (OIL_TEMP, "oil_temp");
    (INTAKE_PRESSURE, "turbo_pressure"); (FUEL_LEVEL, "fuel_consumption");
    (CONTROL_MODULE_VOLTAGE, "battery_voltage") ].

(** Whether the block of a bare channel gets through what its query
    did, and what it then stores. *)
Definition gets_through (cmd : command) (o : outcome) : bool :=
  match cmd with
  | INTAKE_PRESSURE => turbo_readable o
  | FUEL_LEVEL => fuel_readable o
  | CONTROL_MODULE_VOLTAGE => quantity_or_null o
  | _ => int_readable o
  end.

Definition reading_of (cmd : command) (o : outcome) : Py.num :=
  match cmd with
  | INTAKE_PRESSURE => turbo_reading o
  | FUEL_LEVEL => fuel_reading o
  | CONTROL_MODULE_VOLTAGE => voltage_reading o
  | _ => int_reading o
  end.

(** The exception that leaves the block of a bare channel when its
    query does not get through: the one the query raised,
    [AttributeError] for a response without a magnitude, and for a
    quantity the exception of [int()] or of the division. *)
Definition raised_by (cmd : command) (o : outcome) : Py.exn :=
  match o with
  | Raises x => x
  | Ret (Quantity m) =>
      match cmd with
      | INTAKE_PRESSURE | FUEL_LEVEL | CONTROL_MODULE_VOLTAGE => Py.OverflowError
      | _ => match Py.int m with inl x => x | inr _ => Py.ValueError end
      end
  | Ret _ => Py.AttributeError
  end.

(** The blocks of [get_obd_data] for the intake pressure, the fuel
    level and the battery voltage (lines 169-198), under a name each. *)
Definition turbo_block (c : connection) : M unit :=
  response ← connection_query c INTAKE_PRESSURE;
  if is_null response then store "turbo_pressure" (Py.PyInt 0)
  else
    m ← magnitude_of response;
    bar ← lift (Py.truediv m 100);
    store "turbo_pressure" (Py.PyFloat (Py.round1_float bar)).

Definition fuel_block (c : connection) : M unit :=
  response ← connection_query c FUEL_LEVEL;
  if is_null response then store "fuel_consumption" (Py.PyInt 0)
  else
    fuel_percent ← magnitude_of response;
    if Py.gt fuel_percent (Py.PyInt 0) then
      tenth ← lift (Py.truediv fuel_percent 10);
      store "fuel_consumption" (Py.PyFloat (Py.round1_float (10 - tenth)))
    else store "fuel_consumption" (Py.PyInt 0).

Definition voltage_block (c : connection) : M unit :=
  response ← connection_query c CONTROL_MODULE_VOLTAGE;
  if is_null response then store "battery_voltage" (Py.PyInt 0)
  else
    m ← magnitude_of response;
    store "battery_voltage" (Py.round1 m).

(** The block of a bare channel. *)
Definition channel_block (c : connection) (ch : command * string) : M unit :=
  match fst ch with
  | INTAKE_PRESSURE => turbo_block c
  | FUEL_LEVEL => fuel_block c
  | CONTROL_MODULE_VOLTAGE => voltage_block c
  | cmd => read_int c cmd (snd ch)
  end.

(** The readings stored for the channels [chs], over [sd]. *)
Definition stored (c : connection) (chs : list (command * string))
    (sd : gmap string Py.num) : gmap string Py.num :=
  foldl (λ sd ch, <[snd ch := reading_of (fst ch) (query c (fst ch))]> sd) sd chs.

(** The blocks of the channels [chs], one after the other. *)
Fixpoint run_blocks (c : connection) (chs : list (command * string)) : M unit :=
  match chs with
  | [] => skip
  | ch :: rest => channel_block c ch;; run_blocks c rest
  end.

(** What [run_blocks] comes to: the readings are stored in turn up to
    the first channel whose query does not get through, where the
    exception leaves the pass. *)
Fixpoint read_channels (c : connection) (chs : list (command * string))
    (st : state) : (Py.exn + unit) * state :=
  match chs with
  | [] => (inr tt, st)
  | ch :: rest =>
      if gets_through (fst ch) (query c (fst ch))
      then read_channels c rest
             (set_sensor_data (<[snd ch := reading_of (fst ch) (query c (fst ch))]>) st)
      else (inl (raised_by (fst ch) (query c (fst ch))), st)
  end.

(** The five channels that [get_obd_data] and [simulate_obd_data] pass
    through [int()]. *)
Definition truncated_ids : list string :=
  [ "rpm"; "speed"; "motor_load"; "motor_temp"; "oil_temp" ].

(** Those five channels hold Python ints. *)
Definition truncated_are_ints (st : state) : Prop :=
  Forall (λ k, ∃ z : Z, sensor_data st !! k = Some (Py.PyInt z)) truncated_ids.

(** Sample interfaces for the sampling pass. *)
Module SamplePass.

(** A connected interface on which [RPM], [SPEED], [ENGINE_LOAD] and
    [COOLANT_TEMP] answer and the [OIL_TEMP] query raises. *)
Definition oil_temp_raises : connection :=
  {| is_connected := true;
     query := λ cmd,
       match cmd with
       | RPM => Ret (Quantity (Py.PyFloat 2250.75))
       | SPEED => Ret (Quantity (Py.PyInt 87))
       | COOLANT_TEMP => Ret (Quantity (Py.PyInt 92))
       | OIL_TEMP => Raises Py.OSError
       | _ => Ret Null
       end |}.

(** A connected interface that answers every query but the battery
    voltage, for which it has no data. *)
Definition no_voltage : connection :=
  {| is_connected := true;
     query := λ cmd,
       match cmd with
       | CONTROL_MODULE_VOLTAGE => Ret Null
       | COOLANT_TEMP => Ret (Quantity (Py.PyInt 92))
       | _ => Ret (Quantity (Py.PyInt 50))
       end |}.

End SamplePass.

(* ===================================================================== *)
(** * Part II: lemmas and theorems *)
(* ===================================================================== *)

(** ** Reasoning about computations *)

Lemma bind_unfold {A B} (m : M A) (k : A → M B) e st :
  (m ≫= k) e st =
  match m e st with
  | (inr a, st') => k a e st'
  | (inl x, st') => (inl x, st')
  end.
Proof. reflexivity. Qed.

Lemma bind_returns {A B} (m : M A) (k : A → M B) e st a st' :
  m e st = (inr a, st') → (m ≫= k) e st = k a e st'.
Proof. intros H. rewrite bind_unfold, H. reflexivity. Qed.

Lemma bind_raises {A B} (m : M A) (k : A → M B) e st x st' :
  m e st = (inl x, st') → (m ≫= k) e st = (inl x, st').
Proof. intros H. rewrite bind_unfold, H. reflexivity. Qed.

(** Unfolds the primitive operations of the monad. *)
Ltac run :=
  cbv [mbind M_bind mret M_ret store load modify try_except ask get raise
       lift magnitude_of skip emit datetime_now random_random].

Section Invariant.
Context (I : state → Prop).

Lemma invariant_ret {A} (a : A) : invariant I (mret a).
Proof. intros e st H. exact H. Qed.

Lemma invariant_raise {A} x : invariant I (@raise A x).
Proof. intros e st H. exact H. Qed.

Lemma invariant_lift {A} (r : Py.exn + A) : invariant I (lift r).
Proof. intros e st H. exact H. Qed.

Lemma invariant_ask {A} (f : env → A) : invariant I (ask f).
Proof. intros e st H. exact H. Qed.

Lemma invariant_get {A} (f : state → A) : invariant I (get f).
Proof. intros e st H. exact H. Qed.

Lemma invariant_modify (f : state → state) :
  (∀ st, I st → I (f st)) → invariant I (modify f).
Proof. intros Hf e st H. apply Hf, H. Qed.

Lemma invariant_bind {A B} (m : M A) (k : A → M B) :
  invariant I m → (∀ a, invariant I (k a)) → invariant I (m ≫= k).
Proof.
  intros Hm Hk e st H. rewrite bind_unfold.
  specialize (Hm e st H).
  destruct (m e st) as [[x | a] st']; simpl in *.
  - exact Hm.
  - apply Hk, Hm.
Qed.

Lemma invariant_try_except {A} (m h : M A) :
  invariant I m → invariant I h → invariant I (try_except m h).
Proof.
  intros Hm Hh e st H. unfold try_except.
  specialize (Hm e st H).
  destruct (m e st) as [[x | a] st']; simpl in *.
  - apply Hh, Hm.
  - exact Hm.
Qed.

Lemma invariant_for_each {A} (body : A → M unit) (l : list A) :
  (∀ a, invariant I (body a)) → invariant I (for_each body l).
Proof.
  intros Hb. induction l as [| a l IH]; simpl.
  - apply invariant_ret.
  - apply invariant_bind; [apply Hb | intros _; exact IH].
Qed.

Lemma invariant_while_true (body : M unit) envs st :
  invariant I body → I st → I (snd (while_true body envs st)).
Proof.
  intros Hb. revert st. induction envs as [| e envs IH]; intros st H; simpl.
  - exact H.
  - specialize (Hb e st H).
    destruct (body e st) as [[x | []] st']; simpl in *.
    + exact Hb.
    + apply IH, Hb.
Qed.

End Invariant.

(** Splits an [invariant] goal along the structure of the computation. *)
Ltac invariant_step :=
  lazymatch goal with
  | |- invariant _ (_ ≫= _) => apply invariant_bind; [| intros ?]
  | |- invariant _ (mret _) => apply invariant_ret
  | |- invariant _ skip => apply invariant_ret
  | |- invariant _ (raise _) => apply invariant_raise
  | |- invariant _ (lift _) => apply invariant_lift
  | |- invariant _ (ask _) => apply invariant_ask
  | |- invariant _ (get _) => apply invariant_get
  | |- invariant _ (try_except _ _) => apply invariant_try_except
  | |- invariant _ (for_each _ _) => apply invariant_for_each; intros ?
  | |- invariant _ (emit _) => unfold emit
  | |- invariant _ (load _) => unfold load
  | |- invariant _ (store _ _) => unfold store
  | |- invariant _ (magnitude_of _) => unfold magnitude_of
  | |- invariant _ (dtc_list_of _) => unfold dtc_list_of
  | |- invariant _ (connection_query _ _) => unfold connection_query
  | |- invariant _ (if ?b then _ else _) => destruct b
  | |- invariant _ (match ?x with _ => _ end) => destruct x
  end.

(* ===================================================================== *)
(** ** Sensor acquisition *)
(* ===================================================================== *)

Lemma complete_insert sd k v : complete sd → complete (<[k := v]> sd).
Proof.
  intros H k' Hk'. destruct (decide (k = k')) as [-> | Hne].
  - exists v. apply lookup_insert_eq.
  - rewrite lookup_insert_ne by exact Hne. apply H, Hk'.
Qed.

Lemma complete_initial : complete initial_sensor_data.
Proof.
  intros k Hk. unfold channel_ids in Hk.
  repeat (apply elem_of_cons in Hk as [-> | Hk]; [eexists; reflexivity |]).
  inversion Hk.
Qed.

Lemma store_complete key v : invariant sensors_complete (store key v).
Proof. apply invariant_modify. intros st. apply complete_insert. Qed.

Lemma random_random_keeps_sensors (P : gmap string Py.num → Prop) :
  invariant (λ st, P (sensor_data st)) random_random.
Proof. intros e st H. exact H. Qed.

Lemma connection_query_invariant I c cmd : invariant I (connection_query c cmd).
Proof.
  unfold connection_query. destruct (query c cmd); repeat invariant_step.
Qed.

Lemma magnitude_of_invariant I r : invariant I (magnitude_of r).
Proof. unfold magnitude_of. repeat invariant_step. Qed.

Lemma simulate_obd_data_complete : invariant sensors_complete simulate_obd_data.
Proof.
  unfold simulate_obd_data.
  repeat first
    [ apply store_complete
    | apply (random_random_keeps_sensors complete)
    | invariant_step ].
Qed.

Lemma read_int_complete c cmd key : invariant sensors_complete (read_int c cmd key).
Proof.
  unfold read_int.
  repeat first
    [ apply store_complete | apply connection_query_invariant
    | apply magnitude_of_invariant | invariant_step ].
Qed.

Lemma get_obd_data_complete : invariant sensors_complete get_obd_data.
Proof.
  unfold get_obd_data.
  repeat first
    [ apply store_complete | apply connection_query_invariant
    | apply magnitude_of_invariant | apply read_int_complete
    | apply simulate_obd_data_complete | invariant_step ].
Qed.

(** *** The connected path *)

Lemma set_sensor_data_compose f g st :
  set_sensor_data f (set_sensor_data g st) = set_sensor_data (λ sd, f (g sd)) st.
Proof. reflexivity. Qed.

Lemma read_int_answers c cmd key e st :
  int_readable (query c cmd) = true →
  read_int c cmd key e st
  = (inr tt, set_sensor_data (<[key := int_reading (query c cmd)]>) st).
Proof.
  unfold read_int, connection_query, int_readable, int_reading. run.
  destruct (query c cmd) as [[| m |] |]; try discriminate; simpl.
  - reflexivity.
  - destruct (Py.int m); [discriminate | reflexivity].
Qed.

(** A connected pass whose queries all get through returns, and leaves
    [connected_snapshot]. *)
Lemma get_obd_data_connected e st c :
  conn e = Some c → is_connected c = true → pass_answers c = true →
  get_obd_data e st = (inr tt, set_sensor_data (connected_snapshot e c) st).
Proof.
  intros Hc Hi Ha. unfold pass_answers in Ha.
  repeat (apply andb_prop in Ha as [Ha ?]).
  unfold get_obd_data. rewrite bind_unfold. unfold ask at 1. rewrite Hc, Hi.
  cbn [negb].
  do 5 (erewrite bind_returns by (apply read_int_answers; assumption)).
  unfold connected_snapshot, afr_reading, turbo_reading, fuel_reading,
    voltage_reading, quantity_or_null, turbo_readable, fuel_readable,
    connection_query in *.
  run.
  destruct (query c INTAKE_PRESSURE) as [[| m1 |] |]; try discriminate;
    try (destruct (Py.truediv m1 100) as [x1 | bar]; [discriminate |]);
    (destruct (query c FUEL_LEVEL) as [[| m2 |] |]; try discriminate);
    try (destruct (Py.gt m2 (Py.PyInt 0));
         [destruct (Py.truediv m2 10) as [x2 | tenth]; [discriminate |] |]);
    (destruct (query c CONTROL_MODULE_VOLTAGE) as [[| m3 |] |]; try discriminate);
    destruct (afr_command e);
    try destruct (query c AIR_FUEL_RATIO) as [[| m4 |] |];
    reflexivity.
Qed.

(** With no data on every channel each affected field falls back: 14.7
    for the air-fuel ratio, 0 for the eight others. *)
Lemma null_responses_fall_back e st c :
  conn e = Some c → is_connected c = true → (∀ cmd, query c cmd = Ret Null) →
  ∃ st', get_obd_data e st = (inr tt, st')
    ∧ sensor_data st' !! "air_fuel_ratio" = Some (Py.PyFloat 14.7)
    ∧ ∀ k, k ∈ [ "rpm"; "speed"; "motor_load"; "motor_temp"; "oil_temp";
                 "turbo_pressure"; "fuel_consumption"; "battery_voltage" ] →
           sensor_data st' !! k = Some (Py.PyInt 0).
Proof.
  intros Hc Hi Hq. eexists. split; [| split].
  - apply (get_obd_data_connected e st c Hc Hi).
    unfold pass_answers. rewrite !Hq. reflexivity.
  - simpl. unfold connected_snapshot. rewrite !Hq.
    destruct (afr_command e); apply lookup_insert_eq.
  - intros k Hk. simpl. unfold connected_snapshot. rewrite !Hq.
    repeat (apply elem_of_cons in Hk as [-> | Hk]; [by simplify_map_eq |]).
    inversion Hk.
Qed.

(** An error raised by a query outside the [try] block leaves the pass
    at once: nothing is stored for that channel or for the later ones. *)
Lemma rpm_error_aborts_pass e st c x :
  conn e = Some c → is_connected c = true → query c RPM = Raises x →
  get_obd_data e st = (inl x, st).
Proof.
  intros Hc Hi Hq. unfold get_obd_data. rewrite bind_unfold. unfold ask at 1.
  rewrite Hc, Hi. cbn [negb].
  apply bind_raises. unfold read_int. apply bind_raises.
  unfold connection_query. rewrite Hq. reflexivity.
Qed.

(** C2, at the failing input: with a connected interface whose RPM
    query raises, the pass raises the error instead of falling back, and
    no other channel is read: the turbo pressure keeps its start-up value
    1.2 where the fallback is 0. *)
Theorem per_channel_fallback_fails_on_error :
  let e := Sample.env_of (Some Sample.rpm_raises) Sample.frozen_clock in
  let result := get_obd_data e (initial_state ∅) in
  fst result = inl Py.OSError
  ∧ snd result = initial_state ∅
  ∧ sensor_data (snd result) !! "turbo_pressure" = Some (Py.PyFloat 1.2)
  ∧ Py.eq (Py.PyFloat 1.2) (Py.PyInt 0) = false.
Proof.
  cbv zeta.
  rewrite (rpm_error_aborts_pass _ _ Sample.rpm_raises Py.OSError) by reflexivity.
  simpl. split; [reflexivity | split; [reflexivity |]].
  split; vm_compute; reflexivity.
Qed.

(** C7: on a connected pass whose queries get through, the intake
    pressure is stored in bar, rounded to one decimal (202 kPa gives
    2.0); the fuel level p > 0 is stored as round(10 - p/10, 1) (55 %
    gives 4.5) and a fuel level of 0 as 0. *)
Theorem unit_conversion (e : env) (st : state) (c : connection) :
  conn e = Some c → is_connected c = true → pass_answers c = true →
  ∃ st', get_obd_data e st = (inr tt, st')
    ∧ (∀ m bar, query c INTAKE_PRESSURE = Ret (Quantity m) →
         Py.truediv m 100 = inr bar →
         sensor_data st' !! "turbo_pressure"
         = Some (Py.PyFloat (Py.round1_float bar)))
    ∧ (∀ m, m = Py.PyInt 202 ∨ m = Py.PyFloat 202 →
         query c INTAKE_PRESSURE = Ret (Quantity m) →
         sensor_data st' !! "turbo_pressure" = Some (Py.PyFloat 2.0))
    ∧ (∀ m tenth, query c FUEL_LEVEL = Ret (Quantity m) →
         Py.truediv m 10 = inr tenth →
         sensor_data st' !! "fuel_consumption"
         = Some (if Py.gt m (Py.PyInt 0)
                 then Py.PyFloat (Py.round1_float (10 - tenth))
                 else Py.PyInt 0))
    ∧ (∀ m, m = Py.PyInt 55 ∨ m = Py.PyFloat 55 →
         query c FUEL_LEVEL = Ret (Quantity m) →
         sensor_data st' !! "fuel_consumption" = Some (Py.PyFloat 4.5))
    ∧ (∀ m, m = Py.PyInt 0 ∨ m = Py.PyFloat 0 →
         query c FUEL_LEVEL = Ret (Quantity m) →
         sensor_data st' !! "fuel_consumption" = Some (Py.PyInt 0)).
Proof.
  intros Hc Hi Ha. eexists. split.
  { apply (get_obd_data_connected e st c Hc Hi Ha). }
  simpl. unfold connected_snapshot.
  repeat split; intros m; intros; simplify_map_eq;
    repeat match goal with
           | H : query _ _ = _ |- _ => rewrite H
           | H : _ ∨ _ |- _ => destruct H; subst
           end;
    unfold turbo_reading, fuel_reading;
    repeat match goal with
           | H : Py.truediv _ _ = _ |- _ => rewrite H; clear H
           end; reflexivity.
Qed.

Lemma unit_conversion_witness :
  let e := Sample.env_of (Some Sample.warm_engine) Sample.frozen_clock in
  ∃ st', get_obd_data e (initial_state ∅) = (inr tt, st')
    ∧ sensor_data st' !! "turbo_pressure" = Some (Py.PyFloat 2.0)
    ∧ sensor_data st' !! "fuel_consumption" = Some (Py.PyFloat 4.5).
Proof.
  intros e.
  destruct (unit_conversion e (initial_state ∅) Sample.warm_engine)
    as (st' & Hrun & _ & Hturbo & _ & Hfuel & _); try reflexivity.
  exists st'. split; [exact Hrun | split].
  - apply (Hturbo (Py.PyInt 202)); [left |]; reflexivity.
  - apply (Hfuel (Py.PyInt 55)); [left |]; reflexivity.
Defined.

(** *** Completeness of the snapshot *)

(** Proves that a computation keeps a property of the fields that it
    never assigns. *)
Ltac keeps :=
  repeat first
    [ invariant_step
    | apply invariant_modify; intros ? H; exact H
    | intros ? ? H; exact H ].

Section SensorsUntouched.
Context (P : gmap string Py.num → Prop).
Let I : state → Prop := λ st, P (sensor_data st).

Lemma rotate_logs_keeps_sensors : invariant I rotate_logs.
Proof.
  unfold rotate_logs, get_log_filename, file_close, file_open,
    os_path_exists, os_remove.
  keeps.
Qed.

Lemma log_sensor_data_keeps_sensors : invariant I log_sensor_data.
Proof.
  unfold log_sensor_data. apply invariant_bind.
  - apply rotate_logs_keeps_sensors.
  - intros _. unfold file_write. keeps.
Qed.

Lemma get_dtc_codes_keeps_sensors : invariant I get_dtc_codes.
Proof.
  unfold get_dtc_codes, demo_error_codes, demo_fault, connection_query,
    dtc_list_of, append_fault.
  keeps.
Qed.

Lemma set_control_keeps_sensors n d : invariant I (set_control n d).
Proof. unfold set_control. keeps. Qed.

Lemma set_radio_station_keeps_sensors d : invariant I (set_radio_station d).
Proof. unfold set_radio_station, in_index_range. keeps. Qed.

Lemma set_radio_play_keeps_sensors d : invariant I (set_radio_play d).
Proof. unfold set_radio_play. keeps. Qed.

Lemma set_radio_volume_keeps_sensors d : invariant I (set_radio_volume d).
Proof. unfold set_radio_volume, in_volume_range. keeps. Qed.

Lemma handle_control_change_keeps_sensors d : invariant I (handle_control_change d).
Proof. unfold handle_control_change. keeps. Qed.

Lemma handle_radio_change_keeps_sensors d : invariant I (handle_radio_change d).
Proof.
  unfold handle_radio_change, in_index_range, in_volume_range. keeps.
Qed.

End SensorsUntouched.

Lemma update_sensors_body_complete : invariant sensors_complete update_sensors_body.
Proof.
  unfold update_sensors_body.
  apply invariant_bind; [apply get_obd_data_complete | intros _].
  apply invariant_bind; [apply (log_sensor_data_keeps_sensors complete) | intros _].
  keeps.
Qed.

Lemma update_errors_body_complete : invariant sensors_complete update_errors_body.
Proof.
  unfold update_errors_body.
  apply invariant_bind; [apply (get_dtc_codes_keeps_sensors complete) | intros _].
  keeps.
Qed.

Lemma main_body_complete : invariant sensors_complete main_body.
Proof.
  unfold main_body.
  apply invariant_bind; [apply (rotate_logs_keeps_sensors complete) | intros _].
  apply invariant_bind; [apply get_obd_data_complete | intros _].
  apply (get_dtc_codes_keeps_sensors complete).
Qed.

Lemma iterate_invariant I body e alive st :
  invariant I body → I st → I (snd (iterate body e alive st)).
Proof.
  intros Hb H. unfold iterate. destruct alive; [| exact H].
  specialize (Hb e st H). destruct (body e st) as [[x | a] st']; exact Hb.
Qed.

Lemma step_complete e a p :
  sensors_complete (globals p) → sensors_complete (globals (step e a p)).
Proof.
  intros H. unfold step. destruct (running p); [| exact H].
  destruct a; simpl.
  - apply iterate_invariant; [apply update_sensors_body_complete | exact H].
  - apply iterate_invariant; [apply update_errors_body_complete | exact H].
  - pose proof (main_body_complete e (globals p) H) as Hm.
    destruct (main_body e (globals p)) as [[x | u] st']; exact Hm.
  - apply (set_control_keeps_sensors complete), H.
  - apply (set_radio_station_keeps_sensors complete), H.
  - apply (set_radio_play_keeps_sensors complete), H.
  - apply (set_radio_volume_keeps_sensors complete), H.
  - apply (handle_control_change_keeps_sensors complete), H.
  - apply (handle_radio_change_keeps_sensors complete), H.
Qed.

Lemma run_complete steps p :
  sensors_complete (globals p) → sensors_complete (globals (run steps p)).
Proof.
  revert p. induction steps as [| [e a] steps IH]; intros p H; simpl.
  - exact H.
  - apply IH, step_complete, H.
Qed.

(** C9: the snapshot binds all nine channel ids to a number when the
    module is loaded, and a sampling pass keeps it so, through the
    simulated generator as through the connected path, whatever each
    query answers or raises; hence it does in every state the
    process reaches. *)
Theorem snapshot_always_complete :
  (∀ dir, complete (sensor_data (initial_state dir)))
  ∧ (∀ e st, complete (sensor_data st) →
       complete (sensor_data (snd (simulate_obd_data e st))))
  ∧ (∀ e st, complete (sensor_data st) →
       complete (sensor_data (snd (get_obd_data e st))))
  ∧ (∀ steps dir, complete (sensor_data (globals (run steps (boot dir))))).
Proof.
  split; [| split; [| split]].
  - intros dir. apply complete_initial.
  - apply simulate_obd_data_complete.
  - apply get_obd_data_complete.
  - intros steps dir. apply run_complete, complete_initial.
Qed.

(* ===================================================================== *)
(** ** The telemetry tick and its alerts *)
(* ===================================================================== *)

Lemma get_obd_data_keeps_emitted l :
  invariant (λ st, emitted st = l) get_obd_data.
Proof.
  unfold get_obd_data, simulate_obd_data, read_int, connection_query, store.
  keeps.
Qed.

Lemma log_sensor_data_keeps_emitted l :
  invariant (λ st, emitted st = l) log_sensor_data.
Proof.
  unfold log_sensor_data, rotate_logs, get_log_filename, file_close, file_open,
    os_path_exists, os_remove, file_write.
  keeps.
Qed.

Lemma published_app st st' l :
  emitted st' = emitted st ++ l → published st st' = l.
Proof. intros H. unfold published. rewrite H. apply drop_app_length. Qed.

(** A tick that completes publishes the snapshot it sampled, then the
    alerts for that snapshot. *)
Lemma tick_publishes e st st' :
  update_sensors_body e st = (inr tt, st') →
  published st st' = sensor_update (sensor_data st') :: alerts_for (sensor_data st').
Proof.
  unfold update_sensors_body. rewrite bind_unfold.
  pose proof (get_obd_data_keeps_emitted (emitted st) e st eq_refl) as H1.
  destruct (get_obd_data e st) as [[x | []] st1]; [discriminate |].
  rewrite bind_unfold.
  pose proof (log_sensor_data_keeps_emitted _ e st1 eq_refl) as H2.
  pose proof (log_sensor_data_keeps_sensors (λ sd, sd = sensor_data st1) e st1 eq_refl) as H3.
  destruct (log_sensor_data e st1) as [[x | []] st2]; [discriminate |].
  simpl in H1, H2, H3. run. simpl.
  unfold alerts_for.
  destruct (sensor_data st2 !! "motor_temp") as [mt |] eqn:Emt; [| discriminate].
  destruct (Py.gt mt (Py.PyInt 100)) eqn:Egt; simpl; rewrite ?Emt; simpl;
    (destruct (sensor_data st2 !! "battery_voltage") as [bv |] eqn:Ebv; [| discriminate]);
    (destruct (Py.lt bv (Py.PyFloat 12)) eqn:Elt; simpl; rewrite ?Ebv; simpl);
    intros [= <-]; apply published_app; simpl;
    rewrite ?Emt, ?Ebv, ?Egt, ?Elt, H2, H1;
    rewrite <- ?app_assoc; reflexivity.
Qed.

(** C6: a tick that completes with motor_temp = 101 in its snapshot
    publishes exactly one high-temperature alert, of type warning and
    carrying 101; with motor_temp = 99 it publishes none; with a
    battery voltage below 12.0 it publishes exactly one low-voltage
    alert carrying the voltage. The tick's alerts depend on its
    snapshot alone, so they are sent again on every such tick. *)
Theorem threshold_alerting (e : env) (st st' : state) :
  update_sensors_body e st = (inr tt, st') →
  published st st' = sensor_update (sensor_data st') :: alerts_for (sensor_data st')
  ∧ (sensor_data st' !! "motor_temp" = Some (Py.PyInt 101) →
       List.filter (is_alert high_temperature_message) (published st st')
       = [alert "warning" high_temperature_message (Py.PyInt 101)])
  ∧ (sensor_data st' !! "motor_temp" = Some (Py.PyInt 99) →
       List.filter (is_alert high_temperature_message) (published st st') = [])
  ∧ (∀ v, sensor_data st' !! "battery_voltage" = Some v →
       Py.lt v (Py.PyFloat 12.0) = true →
       List.filter (is_alert low_voltage_message) (published st st')
       = [alert "warning" low_voltage_message v]).
Proof.
  intros Hrun. pose proof (tick_publishes e st st' Hrun) as Hp.
  split; [exact Hp |]. rewrite Hp. unfold alerts_for.
  split; [| split].
  - intros ->. simpl.
    destruct (sensor_data st' !! "battery_voltage") as [bv |]; [| reflexivity].
    destruct (Py.lt bv (Py.PyFloat 12)); reflexivity.
  - intros ->. simpl.
    destruct (sensor_data st' !! "battery_voltage") as [bv |]; [| reflexivity].
    destruct (Py.lt bv (Py.PyFloat 12)); reflexivity.
  - intros v -> ->. simpl.
    destruct (sensor_data st' !! "motor_temp") as [mt |]; [| reflexivity].
    destruct (Py.gt mt (Py.PyInt 100)); reflexivity.
Qed.

(** [threshold_alerting] at a tick that samples 101 degrees and 11.9 V. *)
Lemma threshold_alerting_witness :
  let e := Sample.env_of (Some Sample.warm_engine) Sample.frozen_clock in
  let st := initial_state ∅ in
  let st' := snd (update_sensors_body e st) in
  List.filter (is_alert high_temperature_message) (published st st')
  = [alert "warning" high_temperature_message (Py.PyInt 101)].
Proof.
  intros e st st'.
  destruct (threshold_alerting e st st') as (_ & H & _).
  - vm_compute. reflexivity.
  - apply H. vm_compute. reflexivity.
Defined.

(** Two ticks in a row that sample 101 degrees publish the
    high-temperature alert twice: nothing remembers the first one. *)
Example alert_sent_again_on_next_tick :
  let e := Sample.env_of (Some Sample.warm_engine) Sample.frozen_clock in
  List.filter (is_alert high_temperature_message)
    (emitted (snd (update_sensors [e; e] (initial_state ∅))))
  = [ alert "warning" high_temperature_message (Py.PyInt 101);
      alert "warning" high_temperature_message (Py.PyInt 101) ].
Proof. vm_compute. reflexivity. Qed.

(** [snapshot_always_complete] at a pass whose first query raises. *)
Lemma snapshot_always_complete_witness :
  let e := Sample.env_of (Some Sample.rpm_raises) Sample.frozen_clock in
  complete (sensor_data (snd (get_obd_data e (initial_state ∅)))).
Proof.
  intros e.
  destruct snapshot_always_complete as (H0 & _ & H & _).
  apply H, H0.
Defined.

(* ===================================================================== *)
(** ** Log rotation *)
(* ===================================================================== *)

(** After a call that returns, the tracked hour is the hour bucket of
    the time the call read first. *)
Lemma rotate_logs_tracks_hour e st st1 :
  rotate_logs e st = (inr tt, st1) →
  last_hour st1 = Some (strftime_hour (now e (clock_reads st))).
Proof.
  unfold rotate_logs, get_log_filename, file_close, file_open,
    os_path_exists, os_remove.
  run. simpl.
  destruct (bool_decide _) eqn:Hd; simpl.
  - destruct (current_log_file st); simpl;
      (destruct (open_ok e); simpl; [| discriminate]);
      match goal with |- context [bool_decide ?P] => destruct (bool_decide P) end;
      simpl; intros [= <-]; reflexivity.
  - intros [= <-]. simpl.
    apply bool_decide_eq_false in Hd.
    destruct (decide (Some (strftime_hour (now e (clock_reads st))) = last_hour st))
      as [Heq | Hne]; [symmetry; exact Heq | contradiction].
Qed.

(** A call in the tracked hour only reads the clock. *)
Lemma rotate_logs_same_hour e st :
  last_hour st = Some (strftime_hour (now e (clock_reads st))) →
  rotate_logs e st = (inr tt, set_clock_reads S st).
Proof.
  intros H. unfold rotate_logs. run. simpl. rewrite H.
  rewrite bool_decide_eq_false_2; [reflexivity |].
  intros Hne. apply Hne. reflexivity.
Qed.

(** C10: when a call of rotate_logs has returned, a second call that
    reads a time in the same hour bucket opens, closes and deletes
    nothing: the trace of file-system calls, the directory, the file
    handle and the tracked hour are unchanged. *)
Theorem rotation_idempotent (e1 e2 : env) (st st1 : state) :
  rotate_logs e1 st = (inr tt, st1) →
  strftime_hour (now e2 (clock_reads st1)) = strftime_hour (now e1 (clock_reads st)) →
  ∃ st2, rotate_logs e2 st1 = (inr tt, st2)
    ∧ fs_trace st2 = fs_trace st1
    ∧ files st2 = files st1
    ∧ current_log_file st2 = current_log_file st1
    ∧ last_hour st2 = last_hour st1.
Proof.
  intros Hrun Hsame.
  apply rotate_logs_tracks_hour in Hrun.
  exists (set_clock_reads S st1). split.
  - apply rotate_logs_same_hour. rewrite Hrun, Hsame. reflexivity.
  - repeat split.
Qed.

(** [rotation_idempotent] at two calls 20 minutes apart in the hour
    2024-03-01 00h, the first of which rotates. *)
Lemma rotation_idempotent_witness :
  let e1 := Sample.env_of None Sample.frozen_clock in
  let e2 := Sample.env_of None (λ _, t_2024_03_01_0030 + 20 * usec_per_minute) in
  let st1 := snd (rotate_logs e1 (initial_state ∅)) in
  fs_trace st1 = [Open "logs/sensor_data_2024-03-01_00.json"]
  ∧ ∃ st2, rotate_logs e2 st1 = (inr tt, st2)
      ∧ fs_trace st2 = fs_trace st1
      ∧ files st2 = files st1
      ∧ current_log_file st2 = current_log_file st1
      ∧ last_hour st2 = last_hour st1.
Proof.
  intros e1 e2 st1. split; [vm_compute; reflexivity |].
  apply (rotation_idempotent e1 e2 (initial_state ∅) st1).
  - vm_compute. reflexivity.
  - vm_compute. reflexivity.
Defined.

(** *** What the deletion step does achieve *)

Lemma strftime_hour_bucket t t' :
  hour_bucket t = hour_bucket t' → strftime_hour t = strftime_hour t'.
Proof.
  unfold hour_bucket. intros H.
  assert (t / (24 * usec_per_hour) = t' / (24 * usec_per_hour)) as Hday.
  { rewrite (Z.mul_comm 24).
    rewrite <- !Z.div_div by (unfold usec_per_hour; lia).
    rewrite H. reflexivity. }
  unfold strftime_hour, year, month, day, hour. rewrite H, Hday. reflexivity.
Qed.

Lemma hour_bucket_sub_hours t n : hour_bucket (sub_hours t n) = hour_bucket t - n.
Proof.
  unfold hour_bucket, sub_hours.
  replace (t - n * usec_per_hour) with (t + (- n) * usec_per_hour) by lia.
  rewrite Z.div_add by (unfold usec_per_hour; lia). lia.
Qed.

Lemma log_path_bucket t t' :
  hour_bucket t = hour_bucket t' → log_path t = log_path t'.
Proof. intros H. unfold log_path. rewrite (strftime_hour_bucket t t' H). reflexivity. Qed.

Lemma digit_inj a b : digit a = digit b → a mod 10 = b mod 10.
Proof.
  unfold digit. intros H. apply (f_equal nat_of_ascii) in H.
  pose proof (Z.mod_pos_bound a 10 ltac:(lia)).
  pose proof (Z.mod_pos_bound b 10 ltac:(lia)).
  rewrite !nat_ascii_embedding in H by lia. lia.
Qed.

(** Consecutive hours have different labels. *)
Lemma strftime_hour_next t t' :
  hour_bucket t' = hour_bucket t + 1 → strftime_hour t' ≠ strftime_hour t.
Proof.
  intros Hb H. unfold strftime_hour, pad4, pad2 in H. simpl in H.
  injection H as _ _ _ _ _ _ _ _ H1 H0.
  apply digit_inj in H1, H0.
  unfold hour in *. fold (hour_bucket t) in *. fold (hour_bucket t') in *.
  rewrite Hb in *. clear Hb.
  generalize dependent (hour_bucket t). intros b H1 H0.
  Z.to_euclidean_division_equations. lia.
Qed.

(** When the clock reads the tracked hour or the hour after it (no
    hour is skipped), the rotation keeps the directory down to the log
    files of the current and of the previous hour. *)
Lemma rotation_keeps_two_newest e st st' t :
  let t1 := now e (clock_reads st) in
  let t2 := now e (S (clock_reads st)) in
  two_newest t st →
  hour_bucket t1 = hour_bucket t
  ∨ (hour_bucket t1 = hour_bucket t + 1 ∧ hour_bucket t2 = hour_bucket t1) →
  rotate_logs e st = (inr tt, st') →
  two_newest t1 st'.
Proof.
  intros t1 t2 [Hlast Hfiles] Hclock.
  destruct Hclock as [Hsame | [Hnext Hname]].
  - rewrite rotate_logs_same_hour
      by (rewrite Hlast; f_equal; symmetry; apply strftime_hour_bucket, Hsame).
    intros [= <-]. split; simpl.
    + rewrite Hlast. f_equal. symmetry. apply strftime_hour_bucket, Hsame.
    + intros p Hp. destruct (Hfiles p Hp) as [-> | ->]; [left | right];
        apply log_path_bucket; rewrite ?hour_bucket_sub_hours; fold t1; lia.
  - assert (log_path (sub_hours t1 2) = log_path (sub_hours t 1)) as Hold
      by (apply log_path_bucket; rewrite !hour_bucket_sub_hours; lia).
    assert (log_path (sub_hours t1 1) = log_path t) as Hprev
      by (apply log_path_bucket; rewrite !hour_bucket_sub_hours; lia).
    assert (log_path t2 = log_path t1) as Hnew
      by (apply log_path_bucket, Hname).
    unfold two_newest, rotate_logs, get_log_filename, file_close, file_open,
      os_path_exists, os_remove.
    run. simpl. fold t1. rewrite Hlast.
    rewrite bool_decide_eq_true_2
      by (intros H; apply (inj Some) in H;
          exact (strftime_hour_next t t1 Hnext H)).
    simpl.
    destruct (current_log_file st) as [f |]; simpl;
      (destruct (open_ok e); simpl; [| discriminate]); fold t2;
      rewrite Hnew, Hold, Hprev;
      destruct (files st !! log_path t1) as [lines |] eqn:Ht1;
      destruct (bool_decide _) eqn:Hex; simpl; intros [= <-]; simpl;
      (split; [reflexivity |]); intros p Hp;
      rewrite ?Ht1 in Hp; rewrite ?Ht1 in Hex;
      (destruct (decide (p = log_path (sub_hours t 1))) as [-> | Hne];
       [ exfalso;
         first [ rewrite lookup_delete_eq in Hp; destruct Hp; discriminate
               | apply bool_decide_eq_false in Hex; exact (Hex Hp) ] |]);
      rewrite ?lookup_delete_ne in Hp by congruence;
      first
        [ destruct (Hfiles p Hp) as [-> | ->]; [right; reflexivity | contradiction]
        | destruct (decide (p = log_path t1)) as [-> | Hne1]; [left; reflexivity |];
          rewrite lookup_insert_ne in Hp by congruence;
          destruct (Hfiles p Hp) as [-> | ->]; [right; reflexivity | contradiction] ].
Qed.

(** Such a directory holds at most two log files. *)
Lemma two_newest_size t st : two_newest t st → (size (files st) ≤ 2)%nat.
Proof.
  intros [_ Hfiles].
  rewrite <- size_dom.
  assert (dom (files st) ⊆ ({[ log_path t ]} ∪ {[ log_path (sub_hours t 1) ]} : gset string)) as Hsub.
  { intros p Hp. apply elem_of_dom in Hp.
    destruct (Hfiles p Hp) as [-> | ->]; set_solver. }
  apply subseteq_size in Hsub.
  etransitivity; [exact Hsub |].
  rewrite size_union_alt, size_singleton.
  assert ((({[ log_path (sub_hours t 1) ]} : gset string) ∖ {[ log_path t ]})
          ⊆ {[ log_path (sub_hours t 1) ]}) as Hdiff
    by (apply subseteq_difference_l; reflexivity).
  apply subseteq_size in Hdiff.
  rewrite size_singleton in Hdiff. lia.
Qed.

(** C1, at the failing inputs. With fabricated files for the hours
    now-1, now-2 and now-3, the rotation at [now] deletes the file of
    now-2 alone: the file of now-3 remains next to those of now and
    now-1. And from an empty directory, ticks that skip the hours 2 and
    5 leave four log files, the oldest seven hours old. *)
Theorem retention_keeps_older_files :
  let now := SampleLogs.t_now in
  let st' := snd (rotate_logs (SampleLogs.tick_at 0) (initial_state SampleLogs.fabricated)) in
  dom (files st')
  = ({[ log_path now; log_path (sub_hours now 1); log_path (sub_hours now 3) ]} : gset string)
  ∧ dom (files (globals (run SampleLogs.skipping_hours (boot ∅))))
    = ({[ log_path now; log_path (sub_hours now (-3));
          log_path (sub_hours now (-6)); log_path (sub_hours now (-7)) ]} : gset string)
  ∧ size (files (globals (run SampleLogs.skipping_hours (boot ∅)))) = 4%nat.
Proof.
  cbv zeta. split; [| split].
  - apply (bool_decide_eq_true_1 _). vm_compute. reflexivity.
  - apply (bool_decide_eq_true_1 _). vm_compute. reflexivity.
  - vm_compute. reflexivity.
Qed.

(* ===================================================================== *)
(** ** Trouble codes *)
(* ===================================================================== *)

Lemma demo_error_codes_run e st :
  demo_error_codes e st
  = (inr tt,
     set_error_codes (λ _, demo_faults e (clock_reads st))
       (set_clock_reads (λ n, S (S (S (S n)))) st)).
Proof. reflexivity. Qed.

Lemma for_each_append_fault e l st :
  ∃ st', for_each append_fault l e st = (inr tt, st')
    ∧ error_codes st' = error_codes st ++ faults_from e (clock_reads st) l
    ∧ clock_reads st' = (clock_reads st + length l)%nat.
Proof.
  revert st. induction l as [| raw l IH]; intros st; simpl.
  - exists st. rewrite app_nil_r, Nat.add_0_r. repeat split.
  - rewrite bind_unfold. unfold append_fault at 1. run.
    match goal with
    | |- context [for_each append_fault l e ?s] =>
        destruct (IH s) as (st' & Hrun & Hcodes & Hclock)
    end.
    exists st'. rewrite Hrun, Hcodes, Hclock. simpl.
    rewrite <- app_assoc. repeat split. lia.
Qed.

Lemma faults_from_length e n l : length (faults_from e n l) = length l.
Proof. revert n. induction l as [| raw l IH]; intros n; simpl; [| rewrite IH]; reflexivity. Qed.

Lemma faults_from_lookup e n l i raw :
  l !! i = Some raw →
  faults_from e n l !! i
  = Some {| code := raw; title := fst (describe raw);
            description := snd (describe raw);
            time := strftime_minute (now e (n + i)) |}.
Proof.
  revert n i. induction l as [| x l IH]; intros n i H; [discriminate |].
  destruct i as [| i]; simpl in *.
  - injection H as ->. rewrite Nat.add_0_r. reflexivity.
  - rewrite (IH (S n) i H). rewrite Nat.add_succ_r. reflexivity.
Qed.

Lemma describe_unknown raw :
  dtc_descriptions !! raw = None →
  describe raw = ("Hata Kodu " +:+ raw, "Tanımlanmamış hata kodu.").
Proof. intros H. unfold describe. rewrite H. reflexivity. Qed.

Lemma describe_known raw t d :
  dtc_descriptions !! raw = Some (t, d) → describe raw = (t, d).
Proof. intros H. unfold describe. rewrite H. reflexivity. Qed.

(** C3, the claim as stated fails: with a connected interface whose
    trouble-code query result is null the reader leaves the empty list,
    not the four demo codes. *)
Lemma null_trouble_codes_give_no_demo_set :
  let e := Sample.env_of (Some Sample.no_data) Sample.frozen_clock in
  query Sample.no_data GET_DTC = Ret Null
  ∧ get_dtc_codes e (initial_state ∅) = (inr tt, initial_state ∅)
  ∧ error_codes (snd (get_dtc_codes e (initial_state ∅))) = []
  ∧ length (error_codes (snd (get_dtc_codes e (initial_state ∅)))) ≠ 4%nat.
Proof.
  cbv zeta. split; [reflexivity |]. split; [reflexivity |].
  split; [reflexivity |]. simpl. discriminate.
Qed.

(** C3, amended: when the interface is unavailable the reader leaves
    the four demo codes, each stamped with the clock reading taken for
    it; when the interface is connected and the query result is null it
    leaves the empty list; on a successful query it leaves one row per
    raw code, in order, each stamped with the clock reading taken for
    it, and a raw code absent from the lookup table gets the title
    "Hata Kodu <raw>" and the generic description. *)
Theorem fault_code_reader (e : env) (st : state) :
  (connection_available (conn e) = false →
     ∃ st', get_dtc_codes e st = (inr tt, st')
       ∧ error_codes st' = demo_faults e (clock_reads st)
       ∧ length (error_codes st') = 4%nat)
  ∧ (∀ c, conn e = Some c → is_connected c = true →
       query c GET_DTC = Ret Null →
       ∃ st', get_dtc_codes e st = (inr tt, st') ∧ error_codes st' = [])
  ∧ (∀ c dtc_list, conn e = Some c → is_connected c = true →
       query c GET_DTC = Ret (DtcList dtc_list) →
       ∃ st', get_dtc_codes e st = (inr tt, st')
         ∧ length (error_codes st') = length dtc_list
         ∧ ∀ i raw, dtc_list !! i = Some raw →
             ∃ f, error_codes st' !! i = Some f
               ∧ code f = raw
               ∧ time f = strftime_minute (now e (clock_reads st + i))
               ∧ (dtc_descriptions !! raw = None →
                    title f = "Hata Kodu " +:+ raw
                    ∧ description f = "Tanımlanmamış hata kodu.")
               ∧ (∀ t d, dtc_descriptions !! raw = Some (t, d) →
                    title f = t ∧ description f = d)).
Proof.
  split; [| split].
  - intros Hna. eexists. split.
    { unfold get_dtc_codes. rewrite bind_unfold. unfold ask at 1.
      unfold connection_available in Hna.
      destruct (conn e) as [c |]; [rewrite Hna |]; apply demo_error_codes_run. }
    split; reflexivity.
  - intros c Hc Hi Hq. eexists. split.
    { unfold get_dtc_codes. rewrite bind_unfold. unfold ask at 1.
      rewrite Hc, Hi. unfold connection_query. rewrite Hq. reflexivity. }
    reflexivity.
  - intros c dtc_list Hc Hi Hq.
    destruct (for_each_append_fault e dtc_list (set_error_codes (λ _, []) st))
      as (st' & Hrun & Hcodes & _).
    exists st'. split; [| split].
    + unfold get_dtc_codes. rewrite bind_unfold. unfold ask at 1.
      rewrite Hc, Hi. unfold connection_query. rewrite Hq. exact Hrun.
    + rewrite Hcodes. simpl. apply faults_from_length.
    + intros i raw Hraw. rewrite Hcodes. simpl.
      eexists. split; [apply faults_from_lookup, Hraw |].
      simpl. split; [reflexivity |]. split; [reflexivity |].
      split.
      * intros Hnone. rewrite (describe_unknown raw Hnone). split; reflexivity.
      * intros t d Hsome. rewrite (describe_known raw t d Hsome). split; reflexivity.
Qed.

(** [fault_code_reader] without a connection, and with a connected
    interface that reports a listed and an unlisted code. *)
Lemma fault_code_reader_witness :
  let e0 := Sample.env_of None Sample.frozen_clock in
  let c := {| is_connected := true;
              query := λ _, Ret (DtcList ["P0420"; "P1234"]) |} in
  let e := Sample.env_of (Some c) Sample.frozen_clock in
  (∃ st', get_dtc_codes e0 (initial_state ∅) = (inr tt, st')
     ∧ error_codes st' = demo_faults e0 0
     ∧ length (error_codes st') = 4%nat)
  ∧ (∃ st', get_dtc_codes e (initial_state ∅) = (inr tt, st')
       ∧ length (error_codes st') = 2%nat
       ∧ ∃ f, error_codes st' !! 1%nat = Some f
           ∧ code f = "P1234"
           ∧ title f = "Hata Kodu P1234"
           ∧ time f = "01.03.2024 00:30").
Proof.
  intros e0 c e. split.
  - apply (fault_code_reader e0 (initial_state ∅)). reflexivity.
  - destruct (fault_code_reader e (initial_state ∅)) as (_ & _ & H).
    destruct (H c ["P0420"; "P1234"]) as (st' & Hrun & Hlen & Hrows);
      try reflexivity.
    exists st'. split; [exact Hrun | split; [exact Hlen |]].
    destruct (Hrows 1%nat "P1234") as (f & Hf & Hcode & Htime & Hgen & _);
      [reflexivity |].
    exists f. split; [exact Hf | split; [exact Hcode |]].
    destruct Hgen as [Ht _]; [vm_compute; reflexivity |].
    split; [exact Ht | rewrite Htime; vm_compute; reflexivity].
Defined.

(* ===================================================================== *)
(** ** Control and radio mutations *)
(* ===================================================================== *)

Lemma le_int a b : Py.le (Py.PyInt a) (Py.PyInt b) = (a <=? b).
Proof. unfold Py.le, Py.compare, Z.leb. destruct (a ?= b); reflexivity. Qed.

Lemma lt_int a b : Py.lt (Py.PyInt a) (Py.PyInt b) = (a <? b).
Proof. unfold Py.lt, Py.compare, Z.ltb. destruct (a ?= b); reflexivity. Qed.

Lemma volume_out_of_range e st z :
  z < 0 ∨ 100 < z →
  in_volume_range (JNum (Py.PyInt z)) e st = (inr false, st).
Proof.
  intros H. unfold in_volume_range. run. simpl. rewrite !le_int.
  replace ((0 <=? z) && (z <=? 100)) with false; [reflexivity |].
  symmetry. apply andb_false_iff. rewrite !Z.leb_gt. lia.
Qed.

Lemma index_out_of_range e st z n :
  z < 0 ∨ n ≤ z →
  in_index_range (JNum (Py.PyInt z)) n e st = (inr false, st).
Proof.
  intros H. unfold in_index_range. run. simpl. rewrite le_int, lt_int.
  replace ((0 <=? z) && (z <? n)) with false; [reflexivity |].
  symmetry. apply andb_false_iff. rewrite Z.leb_gt, Z.ltb_ge. lia.
Qed.

(** A rejected request leaves the whole state as it was. *)
Lemma set_radio_volume_rejected data e st :
  accepted (fst (set_radio_volume data e st)) = false →
  snd (set_radio_volume data e st) = st.
Proof.
  unfold set_radio_volume, in_volume_range. run.
  destruct (data !! "volume") as [v |]; [| reflexivity].
  destruct (as_num v) as [x | n]; [reflexivity |]. simpl.
  destruct (_ && _); [discriminate | reflexivity].
Qed.

Lemma set_radio_station_rejected data e st :
  accepted (fst (set_radio_station data e st)) = false →
  snd (set_radio_station data e st) = st.
Proof.
  unfold set_radio_station, in_index_range. run.
  destruct (data !! "station") as [v |]; [| reflexivity].
  destruct (as_num v) as [x | n]; [reflexivity |]. simpl.
  destruct (_ && _); [discriminate | reflexivity].
Qed.

Lemma set_radio_play_rejected data e st :
  accepted (fst (set_radio_play data e st)) = false →
  snd (set_radio_play data e st) = st.
Proof.
  unfold set_radio_play. run.
  destruct (data !! "playing") as [v |]; [discriminate | reflexivity].
Qed.

Lemma set_control_rejected control_name data e st :
  accepted (fst (set_control control_name data e st)) = false →
  snd (set_control control_name data e st) = st.
Proof.
  unfold set_control. run. simpl.
  destruct (bool_decide _); [| reflexivity].
  destruct (data !! "state") as [v |]; [discriminate | reflexivity].
Qed.

(** C5: a request setting the volume outside [0,100] is rejected and
    leaves the state, hence the volume, unchanged; so is a request for a
    station index outside [0, len(stations)), the length itself
    included, and a request for an unknown control; and whenever one of
    the four POST handlers rejects, nothing of the state has changed
    and nothing has been published. *)
Theorem validation_failure_is_atomic (e : env) (st : state) :
  (∀ data z, data !! "volume" = Some (JNum (Py.PyInt z)) → z < 0 ∨ 100 < z →
     set_radio_volume data e st = (inr (failure "Invalid volume", 400), st))
  ∧ (∀ data z, data !! "station" = Some (JNum (Py.PyInt z)) →
       z < 0 ∨ Z.of_nat (length (stations (radio_data st))) ≤ z →
       set_radio_station data e st = (inr (failure "Invalid station", 400), st))
  ∧ (∀ control_name data, control_states st !! control_name = None →
       set_control control_name data e st = (inr (failure "Invalid control", 400), st))
  ∧ (∀ data, accepted (fst (set_radio_volume data e st)) = false →
       snd (set_radio_volume data e st) = st)
  ∧ (∀ data, accepted (fst (set_radio_station data e st)) = false →
       snd (set_radio_station data e st) = st)
  ∧ (∀ data, accepted (fst (set_radio_play data e st)) = false →
       snd (set_radio_play data e st) = st)
  ∧ (∀ control_name data,
       accepted (fst (set_control control_name data e st)) = false →
       snd (set_control control_name data e st) = st).
Proof.
  repeat apply conj.
  - intros data z Hv Hz. unfold set_radio_volume. rewrite Hv.
    rewrite bind_unfold, (volume_out_of_range e st z Hz). reflexivity.
  - intros data z Hv Hz. unfold set_radio_station. rewrite Hv.
    rewrite bind_unfold. unfold get at 1. rewrite bind_unfold.
    rewrite (index_out_of_range e st z _ Hz). reflexivity.
  - intros control_name data Hc. unfold set_control. run. simpl. rewrite Hc.
    rewrite bool_decide_eq_false_2; [reflexivity |].
    intros [v Hv]. discriminate.
  - intros data. apply set_radio_volume_rejected.
  - intros data. apply set_radio_station_rejected.
  - intros data. apply set_radio_play_rejected.
  - intros control_name data. apply set_control_rejected.
Qed.

(** [validation_failure_is_atomic] at a volume of 150 and at a station
    index equal to the number of stations. *)
Lemma validation_failure_is_atomic_witness :
  let e := Sample.env_of None Sample.frozen_clock in
  let st := initial_state ∅ in
  set_radio_volume {[ "volume" := JNum (Py.PyInt 150) ]} e st
  = (inr (failure "Invalid volume", 400), st)
  ∧ volume (radio_data st) = JNum (Py.PyInt 70)
  ∧ set_radio_station {[ "station" := JNum (Py.PyInt 5) ]} e st
    = (inr (failure "Invalid station", 400), st)
  ∧ length (stations (radio_data st)) = 5%nat.
Proof.
  intros e st.
  destruct (validation_failure_is_atomic e st) as (Hvol & Hsta & _).
  split; [| split; [reflexivity | split; [| reflexivity]]].
  - apply (Hvol _ 150); [reflexivity | right; reflexivity].
  - apply (Hsta _ 5); [reflexivity | right; vm_compute; discriminate].
Defined.

(** A [radio_change] message whose volume is out of range leaves the
    volume as it was (the other fields of the message are still applied). *)
Lemma radio_change_keeps_volume data z e st :
  data !! "volume" = Some (JNum (Py.PyInt z)) → z < 0 ∨ 100 < z →
  volume (radio_data (snd (handle_radio_change data e st))) = volume (radio_data st).
Proof.
  intros Hv Hz.
  assert (Py.le (Py.PyInt 0) (Py.PyInt z) && Py.le (Py.PyInt z) (Py.PyInt 100) = false)
    as Hrange.
  { rewrite !le_int. apply andb_false_iff. rewrite !Z.leb_gt. lia. }
  unfold handle_radio_change, in_index_range, in_volume_range. rewrite Hv.
  run. simpl. rewrite Hrange. clear Hrange.
  destruct (data !! "station") as [v1 |]; simpl;
    [destruct (as_num v1) as [x1 | n1]; simpl; [reflexivity |];
     destruct (_ && _); simpl |];
    destruct (data !! "playing") as [v2 |]; reflexivity.
Qed.

(** *** The subscriber messages against the POST handlers *)

(** A [radio_change] message does to the state, and publishes, what
    the three radio POST handlers do in turn on the same body. *)
Lemma radio_change_as_posts data e st :
  handle_radio_change data e st = radio_posts data e st.
Proof.
  unfold handle_radio_change, radio_posts, set_radio_station, set_radio_play,
    set_radio_volume, in_index_range, in_volume_range.
  run.
  destruct (data !! "station") as [v1 |]; simpl;
    [destruct (as_num v1) as [x1 | n1]; simpl; [reflexivity |];
     destruct (_ && _); simpl |];
    (destruct (data !! "playing") as [v2 |]; simpl);
    (destruct (data !! "volume") as [v3 |]; simpl; [| reflexivity]);
    (destruct (as_num v3) as [x3 | n3]; simpl; [reflexivity |]);
    destruct (_ && _); reflexivity.
Qed.

(** A [control_change] message that carries a state does to the state,
    and publishes, what the POST handler does for that control. *)
Lemma control_change_as_post control_name v data e st :
  data !! "control" = Some (JStr control_name) → data !! "state" = Some v →
  snd (handle_control_change data e st) = snd (set_control control_name data e st).
Proof.
  intros Hc Hs. unfold handle_control_change, set_control, dict_get.
  rewrite Hc, Hs. run. simpl.
  destruct (bool_decide _); reflexivity.
Qed.

(** C4, at the failing input: the message {"control": "light"}, which
    carries no state. The POST handler rejects that body and changes
    nothing; the subscriber handler stores null for the control and
    broadcasts it. *)
Theorem control_change_without_state_diverges :
  let data : payload := {[ "control" := JStr "light" ]} in
  let e := Sample.env_of None Sample.frozen_clock in
  let st := initial_state ∅ in
  set_control "light" data e st = (inr (failure "Invalid control", 400), st)
  ∧ control_states (snd (handle_control_change data e st)) !! "light" = Some JNull
  ∧ emitted (snd (handle_control_change data e st)) = [control_update "light" JNull]
  ∧ control_states st !! "light" = Some (JBool true).
Proof.
  cbv zeta. repeat apply conj; vm_compute; reflexivity.
Qed.

(* ===================================================================== *)
(** ** The loops and the process *)
(* ===================================================================== *)

Lemma while_true_proceeds body e envs st st' :
  body e st = (inr tt, st') →
  while_true body (e :: envs) st = while_true body envs st'.
Proof. intros H. simpl. rewrite H. reflexivity. Qed.

Lemma while_true_stops body e envs st x st' :
  body e st = (inl x, st') →
  while_true body (e :: envs) st = (inl x, st').
Proof. intros H. simpl. rewrite H. reflexivity. Qed.

Lemma get_obd_data_keeps_log (P : option file → option string → list event → Prop) :
  invariant (λ st, P (current_log_file st) (last_hour st) (emitted st)) get_obd_data.
Proof.
  unfold get_obd_data, simulate_obd_data, read_int. keeps.
Qed.

(** With a usable handle, a directory that can be opened and a write
    that fails, logging raises, and publishes nothing. *)
Lemma log_sensor_data_write_failure e st :
  write_ok e = false → open_ok e = true → log_ready st →
  fst (log_sensor_data e st) = inl Py.OSError
  ∧ emitted (snd (log_sensor_data e st)) = emitted st.
Proof.
  intros Hw Ho Hr. unfold log_ready in Hr.
  unfold log_sensor_data, rotate_logs, get_log_filename, file_close, file_open,
    os_path_exists, os_remove, file_write.
  run. simpl.
  destruct (bool_decide (Some _ ≠ last_hour st)) eqn:Hd; simpl.
  - destruct (current_log_file st) as [f |]; simpl; rewrite Ho; simpl;
      match goal with |- context [bool_decide ?P] => destruct (bool_decide P) end;
      simpl; rewrite Hw; split; reflexivity.
  - destruct (current_log_file st) as [f |]; simpl.
    + rewrite Hr, Hw. split; reflexivity.
    + rewrite Hr in Hd. apply bool_decide_eq_false in Hd.
      exfalso. apply Hd. discriminate.
Qed.

(** A tick whose sampling pass returns and whose log write fails
    raises before anything is published. *)
Lemma tick_write_failure e st :
  write_ok e = false → open_ok e = true → log_ready st →
  fst (get_obd_data e st) = inr tt →
  fst (update_sensors_body e st) = inl Py.OSError
  ∧ emitted (snd (update_sensors_body e st)) = emitted st.
Proof.
  intros Hw Ho Hr Hg. unfold update_sensors_body. rewrite bind_unfold.
  pose proof (get_obd_data_keeps_log
                (λ f h l, match f with
                          | Some f => closed f = false
                          | None => h = None
                          end ∧ l = emitted st) e st (conj Hr eq_refl)) as [Hr1 He1].
  destruct (get_obd_data e st) as [[x | []] st1]; [discriminate |].
  simpl in Hr1, He1. rewrite bind_unfold.
  destruct (log_sensor_data_write_failure e st1 Hw Ho Hr1) as [Hf He2].
  destruct (log_sensor_data e st1) as [[x | []] st2]; simpl in *; [| discriminate].
  injection Hf as ->. split; [reflexivity | congruence].
Qed.

(** C8, the claim as stated fails: a tick during which the log write
    fails ends the telemetry thread; the tick that a healthy environment
    would drive next does not run, and no snapshot is published. *)
Lemma write_failure_stops_telemetry :
  let p1 := step SampleLoops.write_fails sensor_tick (boot ∅) in
  sensor_thread (boot ∅) = true
  ∧ sensor_thread p1 = false
  ∧ step SampleLoops.all_well sensor_tick p1 = p1
  ∧ emitted (globals p1) = []
  ∧ fst (update_sensors [SampleLoops.write_fails; SampleLoops.all_well]
           (initial_state ∅)) = inl Py.OSError.
Proof.
  cbv zeta. repeat apply conj; vm_compute; reflexivity.
Qed.

(** C8, amended: an iteration of either loop never ends the process
    and never touches the other loop's thread; a loop goes on to its
    next tick exactly when its iteration raises nothing, and a loop
    whose iteration raised makes no further tick. A failed write of a
    log entry is not skipped: it ends the telemetry loop before the
    snapshot is published. *)
Theorem loop_failure_ends_the_loop_only (e : env) (p : process) :
  running p = true →
  (running (step e sensor_tick p) = true ∧ running (step e error_tick p) = true)
  ∧ (error_thread (step e sensor_tick p) = error_thread p
     ∧ sensor_thread (step e error_tick p) = sensor_thread p)
  ∧ (sensor_thread (step e sensor_tick p) = true
     ↔ sensor_thread p = true ∧ fst (update_sensors_body e (globals p)) = inr tt)
  ∧ (error_thread (step e error_tick p) = true
     ↔ error_thread p = true ∧ fst (update_errors_body e (globals p)) = inr tt)
  ∧ (sensor_thread p = false → step e sensor_tick p = p)
  ∧ (error_thread p = false → step e error_tick p = p)
  ∧ (sensor_thread p = true → write_ok e = false → open_ok e = true →
     log_ready (globals p) → fst (get_obd_data e (globals p)) = inr tt →
     sensor_thread (step e sensor_tick p) = false
     ∧ emitted (globals (step e sensor_tick p)) = emitted (globals p)).
Proof.
  intros Hrun. unfold step. rewrite Hrun. simpl.
  repeat apply conj; try reflexivity.
  - unfold iterate. destruct (sensor_thread p); [| discriminate].
    destruct (update_sensors_body e (globals p)) as [[x | []] st']; simpl;
      [discriminate | intros _; split; reflexivity].
  - intros [Halive Hok]. unfold iterate. rewrite Halive.
    destruct (update_sensors_body e (globals p)) as [[x | []] st'];
      [discriminate | reflexivity].
  - unfold iterate. destruct (error_thread p); [| discriminate].
    destruct (update_errors_body e (globals p)) as [[x | []] st']; simpl;
      [discriminate | intros _; split; reflexivity].
  - intros [Halive Hok]. unfold iterate. rewrite Halive.
    destruct (update_errors_body e (globals p)) as [[x | []] st'];
      [discriminate | reflexivity].
  - intros Hdead. destruct p as [g r s t]. simpl in *. subst. reflexivity.
  - intros Hdead. destruct p as [g r s t]. simpl in *. subst. reflexivity.
  - intros Halive Hw Ho Hr Hg. rewrite Halive.
    destruct (tick_write_failure e (globals p) Hw Ho Hr Hg) as [Hf He].
    unfold iterate.
    destruct (update_sensors_body e (globals p)) as [[x | []] st']; simpl in *;
      [split; [reflexivity | exact He] | discriminate].
Qed.

(** [loop_failure_ends_the_loop_only] at the first tick of a process,
    during which the log write fails. *)
Lemma loop_failure_ends_the_loop_only_witness :
  let e := SampleLoops.write_fails in
  let p := boot ∅ in
  running (step e sensor_tick p) = true
  ∧ sensor_thread (step e sensor_tick p) = false
  ∧ error_thread (step e sensor_tick p) = true
  ∧ emitted (globals (step e sensor_tick p)) = [].
Proof.
  intros e p.
  destruct (loop_failure_ends_the_loop_only e p eq_refl)
    as ((Hr & _) & (He & _) & _ & _ & _ & _ & Hw).
  assert (fst (get_obd_data e (globals p)) = inr tt) as Hg
    by (vm_compute; reflexivity).
  destruct (Hw eq_refl eq_refl eq_refl eq_refl Hg) as [Hdead Hquiet].
  split; [exact Hr | split; [exact Hdead | split]].
  - rewrite He. reflexivity.
  - rewrite Hquiet. reflexivity.
Defined.

(** The telemetry thread of the process runs [update_sensors]: its
    ticks, taken alone, leave the state that the loop leaves, and the
    thread is alive afterwards exactly when the loop has not raised. *)
Lemma sensor_ticks_run_update_sensors envs p :
  running p = true → sensor_thread p = true →
  let p' := run (map (λ e, (e, sensor_tick)) envs) p in
  globals p' = snd (update_sensors envs (globals p))
  ∧ (sensor_thread p' = true ↔ fst (update_sensors envs (globals p)) = inr tt).
Proof.
  revert p. induction envs as [| e envs IH]; intros p Hrun Halive; simpl.
  - split; [reflexivity | split; [reflexivity | intros _; exact Halive]].
  - unfold update_sensors in *. simpl.
    unfold step at 1 2. rewrite Hrun. unfold iterate. rewrite Halive.
    destruct (update_sensors_body e (globals p)) as [[x | []] st'] eqn:Hb; simpl.
    + clear IH. induction envs as [| e' envs IH']; simpl.
      * split; [reflexivity | split; discriminate].
      * exact IH'.
    + apply (IH {| globals := st'; running := true; sensor_thread := true;
                   error_thread := error_thread p |}); reflexivity.
Qed.


(* ===================================================================== *)
(** * Part III: further properties of the code *)
(* ===================================================================== *)

(** ** Invariants of every run *)

(** Unfolds the code of the two loops and of the start-up calls down to
    the primitive operations. *)
Ltac unfold_loops :=
  unfold main_body, update_sensors_body, update_errors_body, get_obd_data,
    simulate_obd_data, read_int, log_sensor_data, rotate_logs,
    get_log_filename, file_close, file_open, os_path_exists, os_remove,
    file_write, get_dtc_codes, demo_error_codes, demo_fault, append_fault.

(** Unfolds the code of the mutation handlers. *)
Ltac unfold_handlers :=
  unfold set_control, set_radio_station, set_radio_play, set_radio_volume,
    handle_control_change, handle_radio_change, in_index_range, in_volume_range.

(** A property kept by the three loop bodies and the six mutation
    handlers holds in every state a run reaches. *)
Lemma run_invariant (I : state → Prop) :
  invariant I update_sensors_body → invariant I update_errors_body →
  invariant I main_body →
  (∀ n d, invariant I (set_control n d)) →
  (∀ d, invariant I (set_radio_station d)) →
  (∀ d, invariant I (set_radio_play d)) →
  (∀ d, invariant I (set_radio_volume d)) →
  (∀ d, invariant I (handle_control_change d)) →
  (∀ d, invariant I (handle_radio_change d)) →
  ∀ steps p, I (globals p) → I (globals (run steps p)).
Proof.
  intros Hs He Hm Hc Hrs Hrp Hrv Hcc Hrc steps.
  induction steps as [| [e a] steps IH]; intros p H; simpl; [exact H |].
  apply IH. unfold step. destruct (running p); [| exact H].
  destruct a; simpl.
  - apply iterate_invariant; assumption.
  - apply iterate_invariant; assumption.
  - pose proof (Hm e (globals p) H) as H'.
    destruct (main_body e (globals p)) as [[x | u] st']; exact H'.
  - apply Hc, H.
  - apply Hrs, H.
  - apply Hrp, H.
  - apply Hrv, H.
  - apply Hcc, H.
  - apply Hrc, H.
Qed.

(** ** Who writes what *)

(** X1: neither loop, nor the start-up calls of the main thread, ever
    changes a control state or the radio state, whether the iteration
    returns or raises. *)
Theorem loops_leave_controls_and_radio (e : env) (st : state) :
  same_controls_and_radio st (snd (update_sensors_body e st))
  ∧ same_controls_and_radio st (snd (update_errors_body e st))
  ∧ same_controls_and_radio st (snd (main_body e st)).
Proof.
  assert (∀ body : M unit,
            invariant (same_controls_and_radio st) body →
            same_controls_and_radio st (snd (body e st))) as Huse.
  { intros body Hb. apply Hb. split; reflexivity. }
  repeat apply conj; apply Huse; unfold_loops; keeps.
Qed.

(** X2: no POST handler and no subscriber message handler ever changes
    the snapshot, the fault list, the log directory, the log handle or
    the tracked hour, or makes a file-system call, whatever the payload
    and whether the handler returns or raises. *)
Theorem handlers_leave_telemetry (e : env) (st : state) (data : payload) :
  (∀ control_name, same_telemetry st (snd (set_control control_name data e st)))
  ∧ same_telemetry st (snd (set_radio_station data e st))
  ∧ same_telemetry st (snd (set_radio_play data e st))
  ∧ same_telemetry st (snd (set_radio_volume data e st))
  ∧ same_telemetry st (snd (handle_control_change data e st))
  ∧ same_telemetry st (snd (handle_radio_change data e st)).
Proof.
  assert (∀ A (h : M A),
            invariant (same_telemetry st) h →
            same_telemetry st (snd (h e st))) as Huse.
  { intros A h Hh. apply Hh. repeat split. }
  repeat apply conj; try intros control_name; apply Huse; unfold_handlers; keeps.
Qed.

(** *** The control ids *)

Lemma control_ids_fixed_insert st k v :
  control_ids_fixed st → is_Some (control_states st !! k) →
  control_ids_fixed (set_control_states (<[k := v]>) st).
Proof.
  intros H Hk j. simpl. rewrite lookup_insert_is_Some. rewrite <- (H j).
  split.
  - intros [<- | [_ Hj]]; assumption.
  - intros Hj. destruct (decide (k = j)); [left | right]; auto.
Qed.

Lemma set_control_keeps_ids n d : invariant control_ids_fixed (set_control n d).
Proof.
  intros e st H. unfold set_control. run. simpl.
  destruct (bool_decide _) eqn:Hd; [| exact H].
  apply bool_decide_eq_true in Hd.
  destruct (d !! "state") as [v |]; [| exact H].
  exact (control_ids_fixed_insert st n v H Hd).
Qed.

Lemma handle_control_change_keeps_ids d :
  invariant control_ids_fixed (handle_control_change d).
Proof.
  intros e st H. unfold handle_control_change. run. simpl.
  destruct (dict_get d "control") as [| b | x | n]; try exact H.
  destruct (bool_decide _) eqn:Hd; [| exact H].
  apply bool_decide_eq_true in Hd.
  exact (control_ids_fixed_insert st n _ H Hd).
Qed.

Lemma control_ids_fixed_initial dir : control_ids_fixed (initial_state dir).
Proof.
  intros k. simpl. unfold initial_control_states, control_names.
  rewrite !lookup_insert_is_Some, lookup_empty, !elem_of_cons, elem_of_nil.
  split.
  - intros H. repeat (destruct H as [H | [_ H]]; [auto 10 |]).
    destruct H as [? H]. discriminate.
  - intros H.
    repeat (destruct H as [-> | H];
            [repeat first [left; reflexivity | right; split; [discriminate |]] |]).
    contradiction.
Qed.

Lemma run_keeps_control_ids steps dir :
  control_ids_fixed (globals (run steps (boot dir))).
Proof.
  apply run_invariant; try apply control_ids_fixed_initial;
    try (intros; apply set_control_keeps_ids);
    try (intros; apply handle_control_change_keeps_ids);
    try (unfold_loops; keeps); intros; unfold_handlers; keeps.
Qed.

(** X3: the set of control ids never changes. In every state that a
    run reaches from start-up, [control_states] holds exactly the six
    ids of its literal: no request or message can add or remove one. *)
Theorem control_ids_never_change (steps : list (env * action))
    (dir : gmap string (list log_entry)) (k : string) :
  is_Some (control_states (globals (run steps (boot dir))) !! k)
  ↔ k ∈ control_names.
Proof. apply run_keeps_control_ids. Qed.

(** *** The radio state *)

(** The two range checks read nothing and change nothing. *)
Lemma in_volume_range_pure v e st e' st' :
  in_volume_range v e st = (fst (in_volume_range v e' st'), st).
Proof. unfold in_volume_range. run. destruct (as_num v); reflexivity. Qed.

Lemma in_index_range_pure v n e st e' st' :
  in_index_range v n e st = (fst (in_index_range v n e' st'), st).
Proof. unfold in_index_range. run. destruct (as_num v); reflexivity. Qed.

Lemma radio_valid_with_volume st v :
  radio_valid st → (∀ e st', in_volume_range v e st' = (inr true, st')) →
  radio_valid (set_radio_data (with_volume v) st).
Proof. intros (Hs & Hv & Hi) H. repeat split; assumption. Qed.

Lemma radio_valid_with_station st v :
  radio_valid st →
  (∀ e st', in_index_range v (Z.of_nat (length (stations (radio_data st)))) e st'
            = (inr true, st')) →
  radio_valid (set_radio_data (with_current_station v) st).
Proof. intros (Hs & Hv & Hi) H. repeat split; assumption. Qed.

Lemma radio_valid_with_playing st v :
  radio_valid st → radio_valid (set_radio_data (with_is_playing v) st).
Proof. intros (Hs & Hv & Hi). repeat split; assumption. Qed.

Lemma radio_valid_emitted st f :
  radio_valid st → radio_valid (set_emitted f st).
Proof. intros H. exact H. Qed.

(** What the three blocks of the radio handlers do to a valid radio
    state, on any continuation of the results. *)
Lemma volume_checked v e st :
  (fst (in_volume_range v e st) = inr true →
   ∀ e' st', in_volume_range v e' st' = (inr true, st')).
Proof.
  intros H e' st'. rewrite (in_volume_range_pure v e' st' e st), H. reflexivity.
Qed.

Lemma index_checked v n e st :
  (fst (in_index_range v n e st) = inr true →
   ∀ e' st', in_index_range v n e' st' = (inr true, st')).
Proof.
  intros H e' st'. rewrite (in_index_range_pure v n e' st' e st), H. reflexivity.
Qed.

Lemma set_radio_volume_valid d : invariant radio_valid (set_radio_volume d).
Proof.
  intros e st H. unfold set_radio_volume.
  destruct (d !! "volume") as [v |]; [| exact H].
  rewrite bind_unfold.
  pose proof (volume_checked v e st) as Hc.
  rewrite (in_volume_range_pure v e st e st) in Hc |- *.
  destruct (fst (in_volume_range v e st)) as [x | [|]]; simpl in *; try exact H.
  run. simpl. apply radio_valid_with_volume; [exact H | apply Hc; reflexivity].
Qed.

Lemma set_radio_station_valid d : invariant radio_valid (set_radio_station d).
Proof.
  intros e st H. unfold set_radio_station.
  destruct (d !! "station") as [v |]; [| exact H].
  rewrite bind_unfold. unfold get at 1. rewrite bind_unfold.
  pose proof (index_checked v (Z.of_nat (length (stations (radio_data st)))) e st) as Hc.
  rewrite (in_index_range_pure v _ e st e st) in Hc |- *.
  destruct (fst (in_index_range v _ e st)) as [x | [|]]; simpl in *; try exact H.
  run. simpl. apply radio_valid_with_station; [exact H | apply Hc; reflexivity].
Qed.

Lemma set_radio_play_valid d : invariant radio_valid (set_radio_play d).
Proof.
  intros e st H. unfold set_radio_play.
  destruct (d !! "playing") as [v |]; [| exact H].
  run. simpl. apply radio_valid_with_playing, H.
Qed.

Lemma radio_posts_valid d : invariant radio_valid (radio_posts d).
Proof.
  unfold radio_posts.
  apply invariant_bind; [apply set_radio_station_valid | intros _].
  apply invariant_bind; [apply set_radio_play_valid | intros _].
  apply invariant_bind; [apply set_radio_volume_valid | intros _].
  apply invariant_ret.
Qed.

Lemma handle_radio_change_valid d : invariant radio_valid (handle_radio_change d).
Proof.
  intros e st H. rewrite radio_change_as_posts. apply radio_posts_valid, H.
Qed.

Lemma radio_valid_initial dir : radio_valid (initial_state dir).
Proof. repeat split. Qed.

(** X4: the radio state stays valid. In every state that a run reaches
    from start-up, through POST requests and subscriber messages alike,
    the station list is the one of start-up, the stored volume satisfies
    [0 <= volume <= 100] and the stored station index satisfies
    [0 <= current_station < len(stations)]. *)
Theorem radio_state_stays_valid (steps : list (env * action))
    (dir : gmap string (list log_entry)) :
  radio_valid (globals (run steps (boot dir))).
Proof.
  apply run_invariant; try apply radio_valid_initial;
    try (intros; first [ apply set_radio_volume_valid
                       | apply set_radio_station_valid
                       | apply set_radio_play_valid
                       | apply handle_radio_change_valid ]);
    try (unfold_loops; keeps); intros; unfold_handlers; keeps.
Qed.

(** ** Requests and messages *)

(** X5: an accepted control request is read back. For a known control
    and a body carrying a state (any JSON value: nothing checks that it
    is a boolean), POST /api/control answers 200 with the control and the
    state, GET /api/controls then returns the former states with that
    one control set to the new value, exactly one control_update is
    published, and the radio state is untouched. *)
Theorem set_control_round_trip (e : env) (st : state) (control_name : string)
    (data : payload) (v : json) :
  is_Some (control_states st !! control_name) → data !! "state" = Some v →
  ∃ st', set_control control_name data e st
         = (inr (success_control control_name v, 200), st')
    ∧ fst (get_controls e st') = inr (<[control_name := v]> (control_states st))
    ∧ published st st' = [control_update control_name v]
    ∧ radio_data st' = radio_data st.
Proof.
  intros Hk Hv. eexists. split.
  - unfold set_control. run. simpl.
    rewrite bool_decide_eq_true_2 by exact Hk. rewrite Hv. reflexivity.
  - split; [reflexivity | split; [| reflexivity]].
    apply published_app. reflexivity.
Qed.

Lemma set_control_round_trip_witness :
  let e := Sample.env_of None Sample.frozen_clock in
  ∃ st', set_control "spotlight" {[ "state" := JBool true ]} e (initial_state ∅)
         = (inr (success_control "spotlight" (JBool true), 200), st')
    ∧ fst (get_controls e st')
      = inr (<["spotlight" := JBool true]> (control_states (initial_state ∅)))
    ∧ published (initial_state ∅) st' = [control_update "spotlight" (JBool true)]
    ∧ radio_data st' = radio_data (initial_state ∅).
Proof.
  intros e.
  apply (set_control_round_trip e (initial_state ∅) "spotlight" _ (JBool true)).
  - vm_compute. eexists. reflexivity.
  - reflexivity.
Defined.

Lemma volume_in_range e st z :
  0 ≤ z ≤ 100 → in_volume_range (JNum (Py.PyInt z)) e st = (inr true, st).
Proof.
  intros H. unfold in_volume_range. run. simpl. rewrite !le_int.
  replace ((0 <=? z) && (z <=? 100)) with true; [reflexivity |].
  symmetry. apply andb_true_iff. rewrite !Z.leb_le. lia.
Qed.

Lemma index_in_range e st z n :
  0 ≤ z < n → in_index_range (JNum (Py.PyInt z)) n e st = (inr true, st).
Proof.
  intros H. unfold in_index_range. run. simpl. rewrite le_int, lt_int.
  replace ((0 <=? z) && (z <? n)) with true; [reflexivity |].
  symmetry. apply andb_true_iff. rewrite Z.leb_le, Z.ltb_lt. lia.
Qed.

(** X6: an accepted radio request is read back. An int volume in
    [0,100], an int station index in [0, len(stations)) and any value
    for playing are stored; GET /api/radio then returns the former radio
    state with that one field replaced, and exactly one radio_update,
    carrying that state, is published. *)
Theorem radio_setters_round_trip (e : env) (st : state) (data : payload) :
  (∀ z, data !! "volume" = Some (JNum (Py.PyInt z)) → 0 ≤ z ≤ 100 →
     ∃ st', set_radio_volume data e st = (inr (success, 200), st')
       ∧ fst (get_radio e st') = inr (with_volume (JNum (Py.PyInt z)) (radio_data st))
       ∧ published st st'
         = [radio_update (with_volume (JNum (Py.PyInt z)) (radio_data st))])
  ∧ (∀ z, data !! "station" = Some (JNum (Py.PyInt z)) →
       0 ≤ z < Z.of_nat (length (stations (radio_data st))) →
       ∃ st', set_radio_station data e st = (inr (success, 200), st')
         ∧ fst (get_radio e st')
           = inr (with_current_station (JNum (Py.PyInt z)) (radio_data st))
         ∧ published st st'
           = [radio_update (with_current_station (JNum (Py.PyInt z)) (radio_data st))])
  ∧ (∀ v, data !! "playing" = Some v →
       ∃ st', set_radio_play data e st = (inr (success, 200), st')
         ∧ fst (get_radio e st') = inr (with_is_playing v (radio_data st))
         ∧ published st st' = [radio_update (with_is_playing v (radio_data st))]).
Proof.
  repeat apply conj.
  - intros z Hv Hz. eexists. split.
    + unfold set_radio_volume. rewrite Hv, bind_unfold, (volume_in_range e st z Hz).
      reflexivity.
    + split; [reflexivity | apply published_app; reflexivity].
  - intros z Hv Hz. eexists. split.
    + unfold set_radio_station. rewrite Hv, bind_unfold. unfold get at 1.
      rewrite bind_unfold, (index_in_range e st z _ Hz). reflexivity.
    + split; [reflexivity | apply published_app; reflexivity].
  - intros v Hv. eexists. split.
    + unfold set_radio_play. rewrite Hv. reflexivity.
    + split; [reflexivity | apply published_app; reflexivity].
Qed.

Lemma radio_setters_round_trip_witness :
  let e := Sample.env_of None Sample.frozen_clock in
  let st := initial_state ∅ in
  (∃ st', set_radio_volume {[ "volume" := JNum (Py.PyInt 100) ]} e st
          = (inr (success, 200), st')
     ∧ fst (get_radio e st') = inr (with_volume (JNum (Py.PyInt 100)) (radio_data st))
     ∧ published st st' = [radio_update (with_volume (JNum (Py.PyInt 100)) (radio_data st))])
  ∧ (∃ st', set_radio_station {[ "station" := JNum (Py.PyInt 4) ]} e st
            = (inr (success, 200), st')
       ∧ fst (get_radio e st')
         = inr (with_current_station (JNum (Py.PyInt 4)) (radio_data st))
       ∧ published st st'
         = [radio_update (with_current_station (JNum (Py.PyInt 4)) (radio_data st))]).
Proof.
  intros e st. split.
  - destruct (radio_setters_round_trip e st {[ "volume" := JNum (Py.PyInt 100) ]})
      as (H & _ & _).
    apply (H 100); [reflexivity | lia].
  - destruct (radio_setters_round_trip e st {[ "station" := JNum (Py.PyInt 4) ]})
      as (_ & H & _).
    apply (H 4); [reflexivity | simpl; lia].
Defined.



(** X8: a radio_change message is nothing but the three radio POST
    requests in a row. On state and published events alike, the handler
    does what set_radio_station, set_radio_play and set_radio_volume do
    in turn on the same payload, their responses dropped: a field that a
    POST request would reject is skipped, and an exception that one
    would raise leaves the handler there. *)
Theorem radio_change_is_the_posts_in_turn (data : payload) (e : env) (st : state) :
  handle_radio_change data e st
  = (set_radio_station data;; set_radio_play data;; set_radio_volume data;; mret tt) e st.
Proof. exact (radio_change_as_posts data e st). Qed.

(** X9: the fields of a radio_change message are validated one by one,
    not together. A message whose int volume is outside [0,100] is
    handled as the same message without the volume, and one whose int
    station index is outside [0, len(stations)) as the same message
    without the station: the remaining fields are applied and published. *)
Theorem radio_change_skips_invalid_field (data : payload) (z : Z) (e : env) (st : state) :
  (data !! "volume" = Some (JNum (Py.PyInt z)) → z < 0 ∨ 100 < z →
     handle_radio_change data e st = handle_radio_change (delete "volume" data) e st)
  ∧ (data !! "station" = Some (JNum (Py.PyInt z)) →
       z < 0 ∨ Z.of_nat (length (stations (radio_data st))) ≤ z →
       handle_radio_change data e st = handle_radio_change (delete "station" data) e st).
Proof.
  split; intros Hd Hz; rewrite !radio_change_as_posts; unfold radio_posts.
  - replace (set_radio_station (delete "volume" data)) with (set_radio_station data)
      by (unfold set_radio_station; rewrite lookup_delete_ne by done; reflexivity).
    replace (set_radio_play (delete "volume" data)) with (set_radio_play data)
      by (unfold set_radio_play; rewrite lookup_delete_ne by done; reflexivity).
    rewrite !bind_unfold.
    destruct (set_radio_station data e st) as [[x | r1] st1]; [reflexivity |].
    rewrite !bind_unfold.
    destruct (set_radio_play data e st1) as [[x | r2] st2]; [reflexivity |].
    rewrite !bind_unfold.
    unfold set_radio_volume. rewrite lookup_delete_eq, Hd.
    rewrite bind_unfold, (volume_out_of_range e st2 z Hz). reflexivity.
  - replace (set_radio_play (delete "station" data)) with (set_radio_play data)
      by (unfold set_radio_play; rewrite lookup_delete_ne by done; reflexivity).
    replace (set_radio_volume (delete "station" data)) with (set_radio_volume data)
      by (unfold set_radio_volume; rewrite lookup_delete_ne by done; reflexivity).
    rewrite !bind_unfold.
    unfold set_radio_station at 1 2. rewrite lookup_delete_eq, Hd.
    rewrite bind_unfold. unfold get at 1.
    rewrite bind_unfold, (index_out_of_range e st z _ Hz). reflexivity.
Qed.

Lemma radio_change_skips_invalid_field_witness :
  let e := Sample.env_of None Sample.frozen_clock in
  let data : payload :=
    <["station" := JNum (Py.PyInt 2)]> {[ "volume" := JNum (Py.PyInt 150) ]} in
  handle_radio_change data e (initial_state ∅)
  = handle_radio_change (delete "volume" data) e (initial_state ∅)
  ∧ current_station (radio_data (snd (handle_radio_change data e (initial_state ∅))))
    = JNum (Py.PyInt 2)
  ∧ volume (radio_data (snd (handle_radio_change data e (initial_state ∅))))
    = JNum (Py.PyInt 70).
Proof.
  intros e data. split; [| split; reflexivity].
  apply (radio_change_skips_invalid_field data 150 e (initial_state ∅));
    [reflexivity | right; reflexivity].
Defined.

(** X10: a control_change message that names its control by a string
    and carries a state does to the state, published events included,
    what POST /api/control does for that control with the same body;
    the POST request is accepted exactly when the control is known, and
    otherwise both paths leave the state as it was. *)
Theorem control_change_with_state_is_the_post (control_name : string) (v : json)
    (data : payload) (e : env) (st : state) :
  data !! "control" = Some (JStr control_name) → data !! "state" = Some v →
  snd (handle_control_change data e st) = snd (set_control control_name data e st)
  ∧ (accepted (fst (set_control control_name data e st)) = true
     ↔ is_Some (control_states st !! control_name))
  ∧ (control_states st !! control_name = None →
     snd (handle_control_change data e st) = st).
Proof.
  intros Hc Hs. unfold handle_control_change, set_control, dict_get.
  rewrite Hc, Hs. run. simpl.
  destruct (bool_decide _) eqn:Hd.
  - apply bool_decide_eq_true in Hd. simpl. repeat split; try (intros; assumption).
    intros Hn. rewrite Hn in Hd. destruct Hd as [? Hd]. discriminate.
  - apply bool_decide_eq_false in Hd. simpl. repeat split.
    + discriminate.
    + intros Hk. contradiction.
Qed.

Lemma control_change_with_state_is_the_post_witness :
  let e := Sample.env_of None Sample.frozen_clock in
  let data : payload :=
    <["control" := JStr "seat_heating"]> {[ "state" := JBool true ]} in
  snd (handle_control_change data e (initial_state ∅))
  = snd (set_control "seat_heating" data e (initial_state ∅))
  ∧ control_states (snd (handle_control_change data e (initial_state ∅)))
    !! "seat_heating" = Some (JBool true).
Proof.
  intros e data. split; [| reflexivity].
  apply (control_change_with_state_is_the_post "seat_heating" (JBool true) data e
           (initial_state ∅)); reflexivity.
Defined.



(** X12: a client that connects is sent the whole current state, and
    nothing else happens. In every state that a run reaches from
    start-up, the connect handler sends that client nine messages in
    this order: the snapshot, the fault list, one control_update for
    each of the six controls with its current state, and the radio
    state; it changes no global and broadcasts nothing to the others. *)
Theorem connect_replays_the_state (steps : list (env * action))
    (dir : gmap string (list log_entry)) (e : env) :
  let st := globals (run steps (boot dir)) in
  ∃ v1 v2 v3 v4 v5 v6,
    control_states st !! "light" = Some v1
    ∧ control_states st !! "seat_heating" = Some v2
    ∧ control_states st !! "seat_cooling" = Some v3
    ∧ control_states st !! "steering_heating" = Some v4
    ∧ control_states st !! "spotlight" = Some v5
    ∧ control_states st !! "screen_switch" = Some v6
    ∧ handle_connect e st
      = (inr [ sensor_update (sensor_data st); error_update (error_codes st);
               control_update "light" v1; control_update "seat_heating" v2;
               control_update "seat_cooling" v3;
               control_update "steering_heating" v4;
               control_update "spotlight" v5; control_update "screen_switch" v6;
               radio_update (radio_data st) ], st).
Proof.
  intros st.
  assert (∀ k, k ∈ control_names → is_Some (control_states st !! k)) as Hids.
  { intros k Hk. apply (run_keeps_control_ids steps dir), Hk. }
  unfold control_names in Hids.
  destruct (Hids "light") as [v1 H1]; [set_solver |].
  destruct (Hids "seat_heating") as [v2 H2]; [set_solver |].
  destruct (Hids "seat_cooling") as [v3 H3]; [set_solver |].
  destruct (Hids "steering_heating") as [v4 H4]; [set_solver |].
  destruct (Hids "spotlight") as [v5 H5]; [set_solver |].
  destruct (Hids "screen_switch") as [v6 H6]; [set_solver |].
  exists v1, v2, v3, v4, v5, v6. repeat (split; [assumption |]).
  unfold handle_connect, control_items, control_names. run. simpl.
  rewrite H1, H2, H3, H4, H5, H6. reflexivity.
Qed.

(** ** Trouble codes and the slow loop *)

Lemma get_dtc_codes_keeps_emitted l :
  invariant (λ st, emitted st = l) get_dtc_codes.
Proof. unfold_loops. keeps. Qed.

(** X13: a pass of the fault-code reader that returns replaces the
    fault list: the list it leaves does not depend on the list it
    found, so faults of an earlier pass are never merged, kept or
    aged. *)
Theorem fault_list_is_replaced (e : env) (st st' : state)
    (f : list fault → list fault) :
  get_dtc_codes e st = (inr tt, st') →
  get_dtc_codes e (set_error_codes f st) = (inr tt, st').
Proof.
  unfold get_dtc_codes. rewrite !bind_unfold. unfold ask at 1 2.
  destruct (conn e) as [c |]; [| intros H; exact H].
  destruct (is_connected c); simpl; [| intros H; exact H].
  rewrite !bind_unfold. unfold connection_query.
  destruct (query c GET_DTC) as [[| m | l] | x]; simpl;
    try discriminate; intros H; exact H.
Qed.

Lemma fault_list_is_replaced_witness :
  let e := Sample.env_of None Sample.frozen_clock in
  let stale := λ _ : list fault,
    [ {| code := "P0500"; title := "Hız Sensörü";
         description := "Araç hızı sensöründe arıza."; time := "29.02.2024 23:45" |} ] in
  get_dtc_codes e (set_error_codes stale (initial_state ∅))
  = get_dtc_codes e (initial_state ∅)
  ∧ length (error_codes (snd (get_dtc_codes e (set_error_codes stale (initial_state ∅)))))
    = 4%nat.
Proof.
  intros e stale. split; [| reflexivity].
  rewrite (fault_list_is_replaced e (initial_state ∅)
             (snd (get_dtc_codes e (initial_state ∅))) stale); reflexivity.
Defined.

Lemma describe_demo_codes :
  describe "P0300" = (P0300_title, P0300_description)
  ∧ describe "P0171" = (P0171_title, P0171_description)
  ∧ describe "P0420" = (P0420_title, P0420_description)
  ∧ describe "P0455" = (P0455_title, P0455_description).
Proof. repeat split; vm_compute; reflexivity. Qed.

(** X14: the demo set agrees with the lookup table. A connected
    interface that reports the codes P0300, P0171, P0420 and P0455 makes
    the reader leave exactly what it leaves without a connection: the
    same four codes with the same titles and descriptions, stamped from
    the same clock readings. *)
Theorem demo_set_matches_lookup_table (e : env) (st : state) (c : connection) :
  is_connected c = true → query c GET_DTC = Ret (DtcList demo_codes) →
  get_dtc_codes (with_conn (Some c) e) st = get_dtc_codes (with_conn None e) st.
Proof.
  intros Hi Hq. destruct describe_demo_codes as (H1 & H2 & H3 & H4).
  unfold get_dtc_codes. rewrite !bind_unfold. unfold ask at 1 2.
  change (conn (with_conn (Some c) e)) with (Some c).
  change (conn (with_conn None e)) with (@None connection).
  cbv iota. rewrite Hi. cbn [negb].
  rewrite bind_unfold. unfold connection_query. rewrite Hq.
  rewrite demo_error_codes_run.
  unfold demo_codes, demo_faults.
  cbv [mbind M_bind mret M_ret modify is_null dtc_list_of for_each append_fault
       datetime_now skip].
  rewrite H1, H2, H3, H4. reflexivity.
Qed.

Lemma demo_set_matches_lookup_table_witness :
  let c := {| is_connected := true; query := λ _, Ret (DtcList demo_codes) |} in
  let e := Sample.env_of None Sample.frozen_clock in
  get_dtc_codes (with_conn (Some c) e) (initial_state ∅)
  = get_dtc_codes (with_conn None e) (initial_state ∅).
Proof.
  intros c e. apply demo_set_matches_lookup_table; reflexivity.
Defined.

(** X15: an iteration of the fault-code loop that returns publishes
    exactly one error_update, carrying the list it has just stored,
    which GET /api/errors then returns; an iteration that raises
    publishes nothing. *)
Theorem error_tick_publishes_the_list (e : env) (st : state) :
  let st' := snd (update_errors_body e st) in
  match fst (update_errors_body e st) with
  | inr _ => published st st' = [error_update (error_codes st')]
             ∧ fst (get_errors e st') = inr (error_codes st')
  | inl _ => published st st' = []
  end.
Proof.
  unfold update_errors_body. rewrite bind_unfold.
  pose proof (get_dtc_codes_keeps_emitted (emitted st) e st eq_refl) as H.
  destruct (get_dtc_codes e st) as [[x | []] st1]; run; simpl in *.
  - apply published_app. rewrite H, app_nil_r. reflexivity.
  - split; [| reflexivity]. apply published_app. simpl. rewrite H. reflexivity.
Qed.

(** ** The connected sampling pass, block by block *)

(** What the block of a bare channel does: it stores the reading, or
    it raises and stores nothing. *)
Lemma channel_block_run c ch e st :
  ch ∈ bare_channels →
  channel_block c ch e st
  = if gets_through (fst ch) (query c (fst ch))
    then (inr tt, set_sensor_data
                    (<[snd ch := reading_of (fst ch) (query c (fst ch))]>) st)
    else (inl (raised_by (fst ch) (query c (fst ch))), st).
Proof.
  intros Hch. unfold bare_channels in Hch.
  repeat (apply elem_of_cons in Hch as [-> | Hch]);
    try (inversion Hch; fail);
    cbn [channel_block gets_through reading_of raised_by fst snd];
    unfold read_int, turbo_block, fuel_block, voltage_block, connection_query,
      int_readable, int_reading, turbo_readable, turbo_reading, fuel_readable,
      fuel_reading, quantity_or_null, voltage_reading, raised_by;
    run;
    match goal with
    | |- context [query c ?cmd] => destruct (query c cmd) as [[| m | l] | x]
    end; try reflexivity; cbn [is_null];
    try (destruct (Py.int m) as [x | z]; reflexivity);
    try (destruct (Py.gt m (Py.PyInt 0)); [| reflexivity]);
    try (unfold Py.truediv; destruct m as [z | f]; [| reflexivity];
         destruct (is_infinity _); reflexivity).
Qed.


Lemma run_blocks_read c chs e st :
  Forall (λ ch, ch ∈ bare_channels) chs →
  run_blocks c chs e st = read_channels c chs st.
Proof.
  intros H. revert st. induction H as [| ch chs Hch _ IH]; intros st; [reflexivity |].
  cbn [run_blocks read_channels]. rewrite bind_unfold, (channel_block_run c ch e st Hch).
  destruct (gets_through _ _); [apply IH | reflexivity].
Qed.

Lemma afr_block_run c e st :
  try_except
    (supported ← ask afr_command;
     if supported : bool then
       response ← connection_query c AIR_FUEL_RATIO;
       if is_null response then store "air_fuel_ratio" (Py.PyFloat 14.7)
       else
         m ← magnitude_of response;
         store "air_fuel_ratio" (Py.round1 m)
     else raise Py.AttributeError)
    (store "air_fuel_ratio" (Py.PyFloat 14.7)) e st
  = (inr tt,
     set_sensor_data
       (<["air_fuel_ratio" := afr_reading (afr_command e) (query c AIR_FUEL_RATIO)]>) st).
Proof.
  unfold connection_query, afr_reading. run.
  destruct (afr_command e); [| reflexivity].
  destruct (query c AIR_FUEL_RATIO) as [[| m |] |]; reflexivity.
Qed.

(** A connected pass runs the eight bare blocks in order and, when all
    of them got through, the air-fuel-ratio block, which always does. *)
Lemma get_obd_data_reads_in_order e st c :
  conn e = Some c → is_connected c = true →
  get_obd_data e st
  = match read_channels c bare_channels st with
    | (inr _, st') =>
        (inr tt,
         set_sensor_data
           (<["air_fuel_ratio" := afr_reading (afr_command e) (query c AIR_FUEL_RATIO)]>)
           st')
    | (inl x, st') => (inl x, st')
    end.
Proof.
  intros Hc Hi.
  rewrite <- (run_blocks_read c bare_channels e st)
    by (apply Forall_forall; intros ch Hch; exact Hch).
  unfold get_obd_data. rewrite bind_unfold. unfold ask at 1. rewrite Hc, Hi.
  cbn [negb]. unfold bare_channels.
  cbn [run_blocks channel_block fst snd].
  unfold turbo_block, fuel_block, voltage_block.
  repeat (rewrite !bind_unfold;
          match goal with
          | |- match ?X with _ => _ end = _ =>
              destruct X as [[? | ?] ?]; [reflexivity |]
          end; cbv beta iota).
  apply afr_block_run.
Qed.

Lemma read_channels_stops c before ch after st :
  forallb (λ b, gets_through (fst b) (query c (fst b))) before = true →
  gets_through (fst ch) (query c (fst ch)) = false →
  read_channels c (before ++ ch :: after) st
  = (inl (raised_by (fst ch) (query c (fst ch))),
     set_sensor_data (stored c before) st).
Proof.
  intros Hb Hch. revert st.
  induction before as [| b before IH]; intros st; cbn [app read_channels].
  - rewrite Hch. destruct st; reflexivity.
  - cbn [forallb] in Hb. apply andb_prop in Hb as [Hb1 Hb2].
    rewrite Hb1, (IH Hb2). reflexivity.
Qed.

Lemma read_channels_all c chs st :
  forallb (λ b, gets_through (fst b) (query c (fst b))) chs = true →
  read_channels c chs st = (inr tt, set_sensor_data (stored c chs) st).
Proof.
  revert st. induction chs as [| b chs IH]; intros st Hb; cbn [read_channels].
  - destruct st; reflexivity.
  - cbn [forallb] in Hb. apply andb_prop in Hb as [Hb1 Hb2].
    rewrite Hb1, (IH _ Hb2). reflexivity.
Qed.

Lemma stored_lookup_other c chs sd k :
  k ∉ map snd chs → stored c chs sd !! k = sd !! k.
Proof.
  revert sd. induction chs as [| b chs IH]; intros sd Hk; [reflexivity |].
  cbn [map] in Hk. apply not_elem_of_cons in Hk as [Hk1 Hk2].
  unfold stored in *. cbn [foldl]. rewrite (IH _ Hk2).
  apply lookup_insert_ne. congruence.
Qed.

Lemma stored_lookup c chs sd b :
  NoDup (map snd chs) → b ∈ chs →
  stored c chs sd !! snd b = Some (reading_of (fst b) (query c (fst b))).
Proof.
  revert sd. induction chs as [| a chs IH]; intros sd Hnd Hb.
  - apply elem_of_nil in Hb as [].
  - cbn [map] in Hnd. apply NoDup_cons in Hnd as [Ha Hnd].
    apply elem_of_cons in Hb as [-> | Hb].
    + change (stored c (a :: chs) sd)
        with (stored c chs (<[snd a := reading_of (fst a) (query c (fst a))]> sd)).
      rewrite (stored_lookup_other _ _ _ _ Ha). apply lookup_insert_eq.
    + apply (IH _ Hnd Hb).
Qed.

Lemma bare_keys_NoDup : NoDup (map snd bare_channels).
Proof. apply (bool_decide_eq_true_1 _). vm_compute. reflexivity. Qed.

Lemma NoDup_map_snd_prefix (before : list (command * string)) rest :
  NoDup (map snd (before ++ rest)) → NoDup (map snd before).
Proof. rewrite map_app. intros H. apply NoDup_app in H as [H _]. exact H. Qed.

(** X16: a connected pass stops at the first channel whose query does
    not get through.  The exception of that channel leaves the pass;
    the channels read before it hold their fresh readings, and every
    other key of the snapshot, the failing one and the air-fuel ratio
    included, keeps the value it had before the pass. *)
Theorem first_failure_tears_the_snapshot e st c before ch after :
  conn e = Some c → is_connected c = true →
  bare_channels = before ++ ch :: after →
  forallb (λ b, gets_through (fst b) (query c (fst b))) before = true →
  gets_through (fst ch) (query c (fst ch)) = false →
  fst (get_obd_data e st) = inl (raised_by (fst ch) (query c (fst ch)))
  ∧ (∀ b, b ∈ before →
       sensor_data (snd (get_obd_data e st)) !! snd b
       = Some (reading_of (fst b) (query c (fst b))))
  ∧ (∀ k, k ∉ map snd before →
       sensor_data (snd (get_obd_data e st)) !! k = sensor_data st !! k).
Proof.
  intros Hc Hi Hsplit Hb Hch.
  rewrite (get_obd_data_reads_in_order e st c Hc Hi), Hsplit,
    (read_channels_stops c before ch after st Hb Hch).
  split; [reflexivity |]. cbn [snd]. split.
  - intros b Hin. destruct st; simpl.
    apply stored_lookup; [| exact Hin].
    apply (NoDup_map_snd_prefix before (ch :: after)).
    rewrite <- Hsplit. apply bare_keys_NoDup.
  - intros k Hk. destruct st; simpl.
    apply stored_lookup_other, Hk.
Qed.

Lemma first_failure_tears_the_snapshot_witness :
  fst (get_obd_data (Sample.env_of (Some SamplePass.oil_temp_raises) Sample.frozen_clock)
         (initial_state ∅))
  = inl Py.OSError
  ∧ sensor_data
      (snd (get_obd_data
              (Sample.env_of (Some SamplePass.oil_temp_raises) Sample.frozen_clock)
              (initial_state ∅))) !! "rpm" = Some (Py.PyInt 2250)
  ∧ sensor_data
      (snd (get_obd_data
              (Sample.env_of (Some SamplePass.oil_temp_raises) Sample.frozen_clock)
              (initial_state ∅))) !! "oil_temp" = Some (Py.PyInt 0).
Proof.
  destruct (first_failure_tears_the_snapshot
              (Sample.env_of (Some SamplePass.oil_temp_raises) Sample.frozen_clock)
              (initial_state ∅) SamplePass.oil_temp_raises
              (take 4 bare_channels) (OIL_TEMP, "oil_temp") (drop 5 bare_channels)
              eq_refl eq_refl eq_refl eq_refl eq_refl) as (H1 & H2 & H3).
  split; [exact H1 |]. split.
  - apply (H2 (RPM, "rpm")). cbn. constructor.
  - rewrite (H3 "oil_temp"); [reflexivity |].
    apply (bool_decide_eq_true_1 _). vm_compute. reflexivity.
Defined.

Lemma bare_channels_pass c :
  forallb (λ b, gets_through (fst b) (query c (fst b))) bare_channels
  = pass_answers c.
Proof.
  unfold pass_answers, bare_channels. cbn [forallb gets_through fst].
  rewrite andb_true_r, !andb_assoc. reflexivity.
Qed.

Lemma read_channels_fails c chs st :
  forallb (λ b, gets_through (fst b) (query c (fst b))) chs = false →
  ∃ x st', read_channels c chs st = (inl x, st').
Proof.
  revert st. induction chs as [| b chs IH]; intros st Hb; [discriminate |].
  cbn [forallb read_channels] in *.
  destruct (gets_through (fst b) (query c (fst b))).
  - apply IH, Hb.
  - eexists _, _. reflexivity.
Qed.

(** A connected pass that returns got all eight bare queries through. *)
Lemma returning_pass_answers e st c :
  conn e = Some c → is_connected c = true →
  fst (get_obd_data e st) = inr tt → pass_answers c = true.
Proof.
  intros Hc Hi. rewrite (get_obd_data_reads_in_order e st c Hc Hi).
  rewrite <- bare_channels_pass. intros H.
  destruct (forallb _ bare_channels) eqn:Hb; [reflexivity |].
  destruct (read_channels_fails c bare_channels st Hb) as (x & st' & Hr).
  rewrite Hr in H. discriminate.
Qed.

(** X17: a connected pass returns exactly when each of the eight
    queries outside the [try] block gets through: a null response or a
    quantity that the conversion of its block accepts.  What the
    air-fuel-ratio query does has no part in it. *)
Theorem connected_pass_returns_iff e st c :
  conn e = Some c → is_connected c = true →
  fst (get_obd_data e st) = inr tt ↔ pass_answers c = true.
Proof.
  intros Hc Hi. split.
  - apply (returning_pass_answers e st c Hc Hi).
  - intros Ha. rewrite (get_obd_data_connected e st c Hc Hi Ha). reflexivity.
Qed.

Lemma connected_pass_returns_iff_witness :
  fst (get_obd_data (Sample.env_of (Some Sample.warm_engine) Sample.frozen_clock)
         (initial_state ∅)) = inr tt
  ∧ fst (get_obd_data (Sample.env_of (Some SamplePass.oil_temp_raises) Sample.frozen_clock)
           (initial_state ∅)) ≠ inr tt.
Proof.
  split.
  - apply (connected_pass_returns_iff
             (Sample.env_of (Some Sample.warm_engine) Sample.frozen_clock)
             (initial_state ∅) Sample.warm_engine eq_refl eq_refl).
    reflexivity.
  - intros H.
    apply (connected_pass_returns_iff
             (Sample.env_of (Some SamplePass.oil_temp_raises) Sample.frozen_clock)
             (initial_state ∅) SamplePass.oil_temp_raises eq_refl eq_refl) in H.
    discriminate H.
Defined.

(** X18: once the eight queries before it got through, the air-fuel
    ratio cannot fail the pass.  A quantity is stored rounded to one
    decimal; a null response, a response without a magnitude, a query
    that raises and an interface without the command all store 14.7. *)
Theorem air_fuel_ratio_falls_back e st c :
  conn e = Some c → is_connected c = true → pass_answers c = true →
  fst (get_obd_data e st) = inr tt
  ∧ (∀ m, afr_command e = true → query c AIR_FUEL_RATIO = Ret (Quantity m) →
       sensor_data (snd (get_obd_data e st)) !! "air_fuel_ratio"
       = Some (Py.round1 m))
  ∧ (afr_command e = false ∨ (∀ m, query c AIR_FUEL_RATIO ≠ Ret (Quantity m)) →
       sensor_data (snd (get_obd_data e st)) !! "air_fuel_ratio"
       = Some (Py.PyFloat 14.7)).
Proof.
  intros Hc Hi Ha. rewrite (get_obd_data_connected e st c Hc Hi Ha).
  split; [reflexivity |]. simpl. unfold connected_snapshot.
  rewrite lookup_insert_eq. unfold afr_reading. split.
  - intros m -> ->. reflexivity.
  - intros [-> | Hq]; [reflexivity |].
    destruct (afr_command e); [| reflexivity].
    destruct (query c AIR_FUEL_RATIO) as [[| m |] |]; try reflexivity.
    destruct (Hq m eq_refl).
Qed.

Lemma air_fuel_ratio_falls_back_witness :
  sensor_data
    (snd (get_obd_data (Sample.env_of (Some Sample.warm_engine) Sample.frozen_clock)
            (initial_state ∅))) !! "air_fuel_ratio"
  = Some (Py.PyFloat 14.7).
Proof.
  apply (air_fuel_ratio_falls_back
           (Sample.env_of (Some Sample.warm_engine) Sample.frozen_clock)
           (initial_state ∅) Sample.warm_engine eq_refl eq_refl eq_refl).
  right. intros m. discriminate.
Defined.

(** *** The truncated channels *)

Lemma store_int_keeps_ints key z :
  invariant truncated_are_ints (store key (Py.PyInt z)).
Proof.
  apply invariant_modify. intros st H. unfold truncated_are_ints in *.
  eapply Forall_impl; [exact H |]. intros k [z' Hk]. simpl.
  destruct (decide (key = k)) as [-> | Hne].
  - exists z. apply lookup_insert_eq.
  - exists z'. rewrite lookup_insert_ne by exact Hne. exact Hk.
Qed.

Lemma store_other_keeps_ints key v :
  key ∉ truncated_ids → invariant truncated_are_ints (store key v).
Proof.
  intros Hkey. apply invariant_modify. intros st H. unfold truncated_are_ints in *.
  apply Forall_forall. intros k Hin.
  destruct (proj1 (Forall_forall _ _) H k Hin) as [z Hk].
  exists z. simpl. rewrite lookup_insert_ne; [exact Hk |].
  intros ->. exact (Hkey Hin).
Qed.

Ltac not_truncated :=
  let H := fresh in
  unfold truncated_ids; intros H;
  repeat (apply elem_of_cons in H as [H | H]; [discriminate H |]);
  inversion H.

Lemma get_obd_data_keeps_ints : invariant truncated_are_ints get_obd_data.
Proof.
  unfold get_obd_data, simulate_obd_data, read_int.
  repeat first
    [ apply store_int_keeps_ints
    | apply store_other_keeps_ints; not_truncated
    | apply connection_query_invariant
    | apply magnitude_of_invariant
    | apply (random_random_keeps_sensors
               (λ sd, Forall (λ k, ∃ z : Z, sd !! k = Some (Py.PyInt z)) truncated_ids))
    | invariant_step ].
Qed.

Lemma truncated_are_ints_initial dir : truncated_are_ints (initial_state dir).
Proof.
  unfold truncated_are_ints, truncated_ids.
  repeat (apply Forall_cons; split; [eexists; reflexivity |]).
  apply Forall_nil. exact I.
Qed.

(** X19: in every state that a run reaches from start-up, the
    channels rpm, speed, motor_load, motor_temp and oil_temp hold
    Python ints, whether the values were simulated, read from the
    interface or left behind by a pass that raised. *)
Theorem truncated_channels_hold_ints (steps : list (env * action))
    (dir : gmap string (list log_entry)) :
  Forall (λ k, ∃ z : Z,
            sensor_data (globals (run steps (boot dir))) !! k = Some (Py.PyInt z))
    truncated_ids.
Proof.
  pose (P := λ sd : gmap string Py.num,
               Forall (λ k, ∃ z : Z, sd !! k = Some (Py.PyInt z)) truncated_ids).
  apply (run_invariant truncated_are_ints).
  - unfold update_sensors_body.
    apply invariant_bind; [apply get_obd_data_keeps_ints | intros _].
    apply invariant_bind; [apply (log_sensor_data_keeps_sensors P) | intros _].
    keeps.
  - unfold update_errors_body.
    apply invariant_bind; [apply (get_dtc_codes_keeps_sensors P) | intros _].
    keeps.
  - unfold main_body.
    apply invariant_bind; [apply (rotate_logs_keeps_sensors P) | intros _].
    apply invariant_bind; [apply get_obd_data_keeps_ints | intros _].
    apply (get_dtc_codes_keeps_sensors P).
  - intros n d. apply (set_control_keeps_sensors P).
  - intros d. apply (set_radio_station_keeps_sensors P).
  - intros d. apply (set_radio_play_keeps_sensors P).
  - intros d. apply (set_radio_volume_keeps_sensors P).
  - intros d. apply (handle_control_change_keeps_sensors P).
  - intros d. apply (handle_radio_change_keeps_sensors P).
  - apply truncated_are_ints_initial.
Qed.

(** *** What a tick publishes *)

(** X20: on a connected interface that has no data for the battery
    voltage, the fallback value 0 is compared with the threshold like a
    reading: every tick that completes publishes the low-voltage alert,
    carrying the int 0. *)
Theorem missing_voltage_raises_the_alert e st st' c :
  conn e = Some c → is_connected c = true →
  query c CONTROL_MODULE_VOLTAGE = Ret Null →
  update_sensors_body e st = (inr tt, st') →
  List.filter (is_alert low_voltage_message) (published st st')
  = [alert "warning" low_voltage_message (Py.PyInt 0)].
Proof.
  intros Hc Hi Hq Hrun.
  rewrite (tick_publishes e st st' Hrun).
  assert (sensor_data st' !! "battery_voltage" = Some (Py.PyInt 0)) as Hbv.
  { revert Hrun. unfold update_sensors_body. rewrite bind_unfold.
    pose proof (returning_pass_answers e st c Hc Hi) as Ha.
    pose proof (get_obd_data_connected e st c Hc Hi) as Hg.
    destruct (get_obd_data e st) as [[x | []] st1]; [discriminate |].
    specialize (Hg (Ha eq_refl)). injection Hg as ->.
    rewrite bind_unfold.
    pose proof (log_sensor_data_keeps_sensors
                  (λ sd, sd !! "battery_voltage" = Some (Py.PyInt 0)) e
                  (set_sensor_data (connected_snapshot e c) st)) as Hl.
    destruct (log_sensor_data e _) as [[x | []] st2]; [discriminate |].
    assert (sensor_data st2 !! "battery_voltage" = Some (Py.PyInt 0)) as H2.
    { apply Hl. simpl. unfold connected_snapshot.
      rewrite lookup_insert_ne by discriminate. rewrite lookup_insert_eq.
      rewrite Hq. reflexivity. }
    clear Hl. run. simpl.
    destruct (sensor_data st2 !! "motor_temp") as [mt |] eqn:Emt; [| discriminate].
    destruct (Py.gt mt (Py.PyInt 100)); simpl; rewrite ?Emt; simpl; rewrite H2; simpl;
      destruct (Py.lt _ _); simpl; rewrite ?H2; simpl; intros [= <-]; exact H2. }
  unfold alerts_for. rewrite Hbv. simpl.
  destruct (sensor_data st' !! "motor_temp") as [mt |]; [| reflexivity].
  destruct (Py.gt mt (Py.PyInt 100)); reflexivity.
Qed.

Lemma missing_voltage_raises_the_alert_witness :
  List.filter (is_alert low_voltage_message)
    (published (initial_state ∅)
       (snd (update_sensors_body
               (Sample.env_of (Some SamplePass.no_voltage) Sample.frozen_clock)
               (initial_state ∅))))
  = [alert "warning" low_voltage_message (Py.PyInt 0)].
Proof.
  apply (missing_voltage_raises_the_alert
           (Sample.env_of (Some SamplePass.no_voltage) Sample.frozen_clock)
           (initial_state ∅) _ SamplePass.no_voltage eq_refl eq_refl eq_refl).
  vm_compute. reflexivity.
Defined.

(** X21: a tick publishes all or nothing.  With all nine channels
    bound, a tick that raises (in the sampling pass or in the logging)
    has published no event, and a tick that returns has published its
    snapshot followed by the alerts for it. *)
Theorem tick_publishes_all_or_nothing e st :
  sensors_complete st →
  match fst (update_sensors_body e st) with
  | inl _ => published st (snd (update_sensors_body e st)) = []
  | inr _ =>
      published st (snd (update_sensors_body e st))
      = sensor_update (sensor_data (snd (update_sensors_body e st)))
        :: alerts_for (sensor_data (snd (update_sensors_body e st)))
  end.
Proof.
  intros Hcomplete.
  destruct (update_sensors_body e st) as [[x | []] st'] eqn:Hrun; cbn [fst snd].
  2: { exact (tick_publishes e st st' Hrun). }
  revert Hrun. unfold update_sensors_body. rewrite bind_unfold.
  pose proof (get_obd_data_keeps_emitted (emitted st) e st eq_refl) as H1.
  pose proof (get_obd_data_complete e st Hcomplete) as C1.
  destruct (get_obd_data e st) as [[x1 | []] st1]; cbn [snd] in H1, C1.
  { intros [= _ <-]. unfold published. rewrite H1. apply drop_all. }
  rewrite bind_unfold.
  pose proof (log_sensor_data_keeps_emitted _ e st1 eq_refl) as H2.
  pose proof (log_sensor_data_keeps_sensors complete e st1 C1) as C2.
  destruct (log_sensor_data e st1) as [[x2 | []] st2]; cbn [snd] in H2, C2.
  { intros [= _ <-]. unfold published. rewrite H2, H1. apply drop_all. }
  destruct (C2 "motor_temp") as [mt Hmt].
  { unfold channel_ids. rewrite !elem_of_cons. auto 10. }
  destruct (C2 "battery_voltage") as [bv Hbv].
  { unfold channel_ids. rewrite !elem_of_cons. auto 10. }
  run. simpl. rewrite Hmt.
  destruct (Py.gt mt (Py.PyInt 100)); simpl; rewrite ?Hmt; simpl; rewrite Hbv;
    destruct (Py.lt bv (Py.PyFloat 12)); simpl; rewrite ?Hbv; discriminate.
Qed.

Lemma tick_publishes_all_or_nothing_witness :
  published (initial_state ∅)
    (snd (update_sensors_body
            (Sample.env_of (Some SamplePass.oil_temp_raises) Sample.frozen_clock)
            (initial_state ∅))) = [].
Proof.
  apply (tick_publishes_all_or_nothing
           (Sample.env_of (Some SamplePass.oil_temp_raises) Sample.frozen_clock)
           (initial_state ∅) complete_initial).
Defined.

(** ** The log files *)

(** What holds of the state after [m] still holds after [m ≫= k] when
    every continuation keeps it. *)
Lemma bind_post {A B} (I : state → Prop) (m : M A) (k : A → M B) e st :
  I (snd (m e st)) → (∀ a, invariant I (k a)) → I (snd ((m ≫= k) e st)).
Proof.
  intros Hm Hk. rewrite bind_unfold.
  destruct (m e st) as [[x | a] st1]; [exact Hm | apply Hk, Hm].
Qed.

Lemma get_obd_data_keeps_files (P : gmap string (list log_entry) → nat → Prop) :
  invariant (λ st, P (files st) (clock_reads st)) get_obd_data.
Proof.
  unfold get_obd_data, simulate_obd_data, read_int. keeps.
Qed.

(** The rotation touches no file but the one exactly two hours older
    than the time it reads. *)
Lemma rotate_logs_other_files e st p lines :
  files st !! p = Some lines →
  p ≠ log_path (sub_hours (now e (clock_reads st)) 2) →
  files (snd (rotate_logs e st)) !! p = Some lines.
Proof.
  intros Hp Hne.
  unfold rotate_logs, get_log_filename, file_close, file_open,
    os_path_exists, os_remove.
  run. simpl.
  destruct (bool_decide (Some _ ≠ last_hour st)); simpl; [| exact Hp].
  assert (∀ d : gmap string (list log_entry), ∀ q,
            d !! p = Some lines →
            match d !! q with Some _ => d | None => <[q := []]> d end !! p
            = Some lines) as Hopen.
  { intros d q Hd. destruct (d !! q) eqn:Hq; [exact Hd |].
    rewrite lookup_insert_ne; [exact Hd |]. intros ->. congruence. }
  destruct (current_log_file st) as [f |]; simpl;
    (destruct (open_ok e); simpl; [| exact Hp]);
    match goal with |- context [bool_decide ?P] => destruct (bool_decide P) end;
    simpl; rewrite ?lookup_delete_ne by (intros Heq; apply Hne; symmetry; exact Heq);
    apply Hopen, Hp.
Qed.

Lemma log_sensor_data_other_files e st p lines :
  files st !! p = Some lines →
  p ≠ log_path (sub_hours (now e (clock_reads st)) 2) →
  ∃ more, files (snd (log_sensor_data e st)) !! p = Some (lines ++ more)
          ∧ (length more ≤ 1)%nat.
Proof.
  intros Hp Hne.
  pose proof (rotate_logs_other_files e st p lines Hp Hne) as Hr.
  unfold log_sensor_data. rewrite bind_unfold.
  destruct (rotate_logs e st) as [[x | []] st1]; simpl in Hr.
  { exists []. rewrite app_nil_r. split; [exact Hr | simpl; lia]. }
  unfold file_write. run. simpl.
  destruct (current_log_file st1) as [f |]; simpl.
  2: { exists []. rewrite app_nil_r. split; [exact Hr | simpl; lia]. }
  destruct (closed f); simpl.
  { exists []. rewrite app_nil_r. split; [exact Hr | simpl; lia]. }
  destruct (write_ok e); simpl.
  2: { exists []. rewrite app_nil_r. split; [exact Hr | simpl; lia]. }
  destruct (decide (path f = p)) as [-> | Hf].
  - eexists [_]. rewrite lookup_alter_eq, Hr. split; [reflexivity | simpl; lia].
  - exists []. rewrite lookup_alter_ne by exact Hf. rewrite app_nil_r.
    split; [exact Hr | simpl; lia].
Qed.

(** X22: a tick never deletes or shortens a log file other than the one
    named after the hour exactly two hours before the time it reads.
    Whether the tick returns or raises, every other file of the
    directory is still there afterwards, with the lines it had and at
    most one more. *)
Theorem tick_spares_the_other_logs e st p lines :
  files st !! p = Some lines →
  p ≠ log_path (sub_hours (now e (clock_reads st)) 2) →
  ∃ more, files (snd (update_sensors_body e st)) !! p = Some (lines ++ more)
          ∧ (length more ≤ 1)%nat.
Proof.
  intros Hp Hne. unfold update_sensors_body.
  pose proof (get_obd_data_keeps_files
                (λ d n, d = files st ∧ n = clock_reads st) e st
                (conj eq_refl eq_refl)) as [Hf Hn].
  rewrite bind_unfold.
  destruct (get_obd_data e st) as [[x | []] st1]; simpl in Hf, Hn.
  { exists []. simpl. rewrite Hf, app_nil_r. split; [exact Hp | simpl; lia]. }
  apply (bind_post
           (λ s, ∃ more, files s !! p = Some (lines ++ more) ∧ (length more ≤ 1)%nat)).
  - apply log_sensor_data_other_files; rewrite ?Hf, ?Hn; assumption.
  - intros _. keeps.
Qed.

Lemma tick_spares_the_other_logs_witness :
  ∃ more,
    files (snd (update_sensors_body (SampleLogs.tick_at 0)
                  (initial_state SampleLogs.fabricated)))
      !! log_path (sub_hours SampleLogs.t_now 3) = Some ([] ++ more)
    ∧ (length more ≤ 1)%nat.
Proof.
  apply (tick_spares_the_other_logs (SampleLogs.tick_at 0)
           (initial_state SampleLogs.fabricated)
           (log_path (sub_hours SampleLogs.t_now 3)) []).
  - vm_compute. reflexivity.
  - vm_compute. discriminate.
Defined.

(** What a call of [log_sensor_data] that returns has written. *)
Lemma log_sensor_data_writes e st st' f :
  log_sensor_data e st = (inr tt, st') →
  current_log_file st' = Some f → is_Some (files st' !! path f) →
  ∃ lines,
    files st' !! path f
    = Some (lines ++ [{| timestamp := now e (Nat.pred (clock_reads st'));
                         sensors := sensor_data st' |}]).
Proof.
  unfold log_sensor_data. rewrite bind_unfold.
  pose proof (rotate_logs_keeps_sensors (λ sd, sd = sensor_data st) e st eq_refl) as Hs.
  destruct (rotate_logs e st) as [[x | []] st1]; [discriminate |]. simpl in Hs.
  unfold file_write. run. simpl.
  destruct (current_log_file st1) as [f1 |] eqn:Hcur; simpl.
  2: { intros [= <-]. simpl. rewrite Hcur. discriminate. }
  destruct (closed f1); simpl; [discriminate |].
  destruct (write_ok e); simpl; [| discriminate].
  intros [= <-]. simpl. rewrite Hcur. intros [= <-].
  rewrite lookup_alter_eq. intros [lines' Hl].
  destruct (files st1 !! path f1) as [lines |]; [| discriminate].
  exists lines. reflexivity.
Qed.

(** X23: the line a tick logs is the snapshot it publishes.  After a
    tick that returns, the last line of the file behind the log handle
    carries the snapshot that the tick's [sensor_update] event carries,
    stamped with the last time the tick read. *)
Theorem logged_line_is_the_published_snapshot e st st' f :
  update_sensors_body e st = (inr tt, st') →
  current_log_file st' = Some f → is_Some (files st' !! path f) →
  (∃ lines,
     files st' !! path f
     = Some (lines ++ [{| timestamp := now e (Nat.pred (clock_reads st'));
                          sensors := sensor_data st' |}]))
  ∧ head (published st st') = Some (sensor_update (sensor_data st')).
Proof.
  intros Hrun Hcur Hfile. split.
  2: { rewrite (tick_publishes e st st' Hrun). reflexivity. }
  revert Hrun. unfold update_sensors_body. rewrite bind_unfold.
  destruct (get_obd_data e st) as [[x | []] st1]; [discriminate |].
  rewrite bind_unfold.
  pose proof (log_sensor_data_writes e st1) as Hw.
  destruct (log_sensor_data e st1) as [[x | []] st2]; [discriminate |].
  specialize (Hw st2 f eq_refl).
  run. simpl.
  destruct (sensor_data st2 !! "motor_temp") as [mt |] eqn:Emt; [| discriminate].
  destruct (Py.gt mt (Py.PyInt 100)); simpl; rewrite ?Emt; simpl;
    (destruct (sensor_data st2 !! "battery_voltage") as [bv |] eqn:Ebv; [| discriminate]);
    (destruct (Py.lt bv (Py.PyFloat 12)); simpl; rewrite ?Ebv; simpl);
    intros [= <-]; simpl in *; apply Hw; assumption.
Qed.

Lemma logged_line_is_the_published_snapshot_witness :
  head (published (initial_state ∅)
          (snd (update_sensors_body SampleLoops.all_well (initial_state ∅))))
  = Some (sensor_update
            (sensor_data
               (snd (update_sensors_body SampleLoops.all_well (initial_state ∅))))).
Proof.
  apply (logged_line_is_the_published_snapshot SampleLoops.all_well
           (initial_state ∅) _
           {| path := "logs/sensor_data_2024-03-01_00.json"; closed := false |}).
  - vm_compute. reflexivity.
  - vm_compute. reflexivity.
  - vm_compute. eexists. reflexivity.
Defined.


